(** * bom-extractor: the upload/result controller of [static/js/main.js]

    A shallow embedding of the browser controller and the properties its
    specification states about it.

    Conventions of the embedding.
    - A JavaScript string is a [string]; each [ascii] stands for one code
      unit below 256.  The HTML serialisation of a text node is modelled on
      all of them; [toUpperCase] is modelled on the ASCII range, and leaves
      the other code units as they are.
    - A record of the item list is the list of its own properties in
      [Object.keys] order; reading a key that is not an own property finds
      the members of [Object.prototype], and gives [VUndefined] for any
      other key.
    - The DOM is a record of the properties the script reads or writes.
    - The [async] submit handler is cut at its suspension point: the part
      before [await fetch] and the part that runs once the request has
      settled. *)

From Stdlib Require Import Bool Ascii String List ZArith Lia DecimalString.
From Stdlib Require DecimalPos.
Import ListNotations.
Open Scope string_scope.

(** ** JavaScript primitives used by the script *)

Module Js.

(** The values a property read can give: the scalars of a parsed JSON
    record, [undefined], a built-in function (by its name) and a plain
    object. *)
Inductive value : Type :=
| VUndefined
| VNull
| VBool (b : bool)
| VNum (n : Z)
| VStr (s : string)
| VFunction (name : string)
| VObject.

(** [String(v)]. Numbers are the integers, printed in plain decimal as
    JavaScript prints the integers a double holds exactly below 10^21; a
    built-in function prints as V8 prints it. *)
Definition ToString (v : value) : string :=
  match v with
  | VUndefined => "undefined"
  | VNull => "null"
  | VBool true => "true"
  | VBool false => "false"
  | VNum n => NilEmpty.string_of_int (Z.to_int n)
  | VStr s => s
  | VFunction name => "function " ++ name ++ "() { [native code] }"
  | VObject => "[object Object]"
  end.

(** [v !== null && v !== undefined] *)
Definition notNullish (v : value) : bool :=
  match v with
  | VUndefined | VNull => false
  | _ => true
  end.

Definition upperUnit (c : ascii) : ascii :=
  let n := nat_of_ascii c in
  if (97 <=? n)%nat && (n <=? 122)%nat then ascii_of_nat (n - 32) else c.

(** [s.toUpperCase()] *)
Fixpoint toUpperCase (s : string) : string :=
  match s with
  | EmptyString => EmptyString
  | String c r => String (upperUnit c) (toUpperCase r)
  end.

(** [s.charAt(0)] *)
Definition charAt0 (s : string) : string :=
  match s with
  | EmptyString => EmptyString
  | String c _ => String c EmptyString
  end.

(** [s.slice(1)] *)
Definition slice1 (s : string) : string :=
  match s with
  | EmptyString => EmptyString
  | String _ r => r
  end.

(** [s.split(sep)] for a one-unit separator: [n] separators give [n+1]
    segments, and the empty string gives one empty segment. *)
Fixpoint split (sep : ascii) (s : string) : list string :=
  match s with
  | EmptyString => [EmptyString]
  | String c r =>
      if Ascii.eqb c sep then EmptyString :: split sep r
      else match split sep r with
           | w :: ws => String c w :: ws
           | [] => [String c EmptyString]
           end
  end.

(** [l.join(sep)] *)
Fixpoint join (sep : string) (l : list string) : string :=
  match l with
  | [] => EmptyString
  | [w] => w
  | w :: ws => w ++ sep ++ join sep ws
  end.

(** [hay.includes(needle)] *)
Fixpoint includes (needle hay : string) : bool :=
  prefix needle hay ||
  match hay with
  | EmptyString => false
  | String _ r => includes needle r
  end.

(** A record object: its own enumerable properties in [Object.keys] order. *)
Definition record : Type := list (string * value).

Definition Object_keys (o : record) : list string := map fst o.

(** The own property [key] of [o], if it has one. *)
Fixpoint getOwn (o : record) (key : string) : option value :=
  match o with
  | [] => None
  | (k, v) :: r => if String.eqb k key then Some v else getOwn r key
  end.

(** What a read finds on [Object.prototype]: its methods, and itself
    through the [__proto__] accessor. *)
Definition Object_prototype : record :=
  [("constructor", VFunction "Object");
   ("__defineGetter__", VFunction "__defineGetter__");
   ("__defineSetter__", VFunction "__defineSetter__");
   ("hasOwnProperty", VFunction "hasOwnProperty");
   ("__lookupGetter__", VFunction "__lookupGetter__");
   ("__lookupSetter__", VFunction "__lookupSetter__");
   ("isPrototypeOf", VFunction "isPrototypeOf");
   ("propertyIsEnumerable", VFunction "propertyIsEnumerable");
   ("toString", VFunction "toString");
   ("valueOf", VFunction "valueOf");
   ("__proto__", VObject);
   ("toLocaleString", VFunction "toLocaleString")].

(** [o[key]] for an object whose prototype is [Object.prototype]: the own
    property, else the inherited one, else [undefined]. *)
Definition get (o : record) (key : string) : value :=
  match getOwn o key with
  | Some v => v
  | None =>
      match getOwn Object_prototype key with
      | Some v => v
      | None => VUndefined
      end
  end.

(** [l.forEach(x => { html += f x })] started from [html]. *)
Definition forEach_append {A : Type} (f : A -> string) (l : list A)
  (html : string) : string :=
  fold_left (fun acc x => acc ++ f x) l html.

End Js.

Import Js.

(** ** Table rendering *)

(** [formatHeader], lines 153-158. *)
Definition formatHeader (key : string) : string :=
  join " "
    (map (fun word => toUpperCase (charAt0 word) ++ slice1 word)
       (split "_" key)).

(** The serialisation of one code unit of a text node; code unit 160 is
    the no-break space. *)
Definition escapeUnit (c : ascii) : string :=
  if Ascii.eqb c "&" then "&amp;"
  else if Ascii.eqb c "160" then "&nbsp;"
  else if Ascii.eqb c "<" then "&lt;"
  else if Ascii.eqb c ">" then "&gt;"
  else String c EmptyString.

(** [escapeHtml], lines 160-164: the text is stored as the only text node
    of a detached [div] and read back through [innerHTML]. *)
Fixpoint escapeHtml (text : string) : string :=
  match text with
  | EmptyString => EmptyString
  | String c r => escapeUnit c ++ escapeHtml r
  end.

(** The body of the inner [keys.forEach] of [createTable], lines 143-144. *)
Definition cellHtml (item : record) (key : string) : string :=
  let value := if notNullish (get item key) then get item key else VStr "-" in
  "<td>" ++ escapeHtml (ToString value) ++ "</td>".

(** The body of [items.forEach], lines 141-146, as the text it appends. *)
Definition rowHtml (keys : list string) (item : record) : string :=
  forEach_append (cellHtml item) keys "<tr>" ++ "</tr>".

(** [createTable], lines 125-151: the string assigned to the [innerHTML] of
    [dataTable]. *)
Definition createTable (items : list record) : string :=
  match items with
  | [] => "<p>No items found</p>"
  | first :: _ =>
      let keys := Object_keys first in
      let html := "<table><thead><tr>" in
      let html :=
        forEach_append (fun key => "<th>" ++ formatHeader key ++ "</th>")
          keys html in
      let html := html ++ "</tr></thead><tbody>" in
      let html := forEach_append (rowHtml keys) items html in
      html ++ "</tbody></table>"
  end.

(** ** The page *)

(** The values the script gives to [style.display]. *)
Inductive display : Type := none | block | flex.

Definition visible (d : display) : bool :=
  match d with
  | none => false
  | _ => true
  end.

(** A [File] of a [FileList]: the two attributes the script reads. *)
Record File : Type := { file_name : string; file_type : string }.

(** The module variable [currentFiles] together with the two elements that
    show the selection: [fileName.textContent] and the [has-file] and
    [drag-over] classes of [fileLabel]. *)
Record Selection : Type := {
  currentFiles : option (list File);
  fileName : string;
  has_file : bool;
  drag_over : bool
}.

(** The controls of [uploadForm]: the files of [fileInput], the value of
    [bomType], and the value [reset()] gives back to [bomType]. *)
Record Form : Type := {
  fileInput : list File;
  bomType : string;
  bomType_default : string
}.

(** [style.display] of the three sections. *)
Record Sections : Type := {
  uploadSection : display;
  resultsSection : display;
  errorSection : display
}.

(** [submitBtn] and its two children. *)
Record SubmitBtn : Type := {
  btnText : display;
  btnLoader : display;
  disabled : bool
}.

(** [files] of a response body. *)
Record Files : Type := { json : string; csv : string }.

(** The results section: three summary texts, the table, and the [files]
    object each download handler has captured ([None]: no handler yet;
    [Some None]: bound over an absent [files]). *)
Record Results : Type := {
  totalItems : string;
  bomTypeDisplay : string;
  documentTitle : string;
  dataTable : string;
  downloadJson : option (option Files);
  downloadCsv : option (option Files)
}.

(** The body of one [fetch('/upload', {method: 'POST', body: formData})]. *)
Record FormData : Type := { fd_file : File; fd_bom_type : string }.

Record Page : Type := {
  selection : Selection;
  form : Form;
  sections : Sections;
  errorMessage : string;
  submitBtn : SubmitBtn;
  results : Results;
  (** every POST to [/upload] issued so far, oldest first *)
  fetched : list FormData
}.

(** ** Responses *)

(** [data] of a success body. *)
Record Data : Type := {
  items : list record;
  total_items : option Z;
  bom_type : string;
  document_title : option string
}.

(** The parsed body [{ success, data?, files?, error? }]. *)
Record Body : Type := {
  success : bool;
  data : option Data;
  body_files : option Files;
  error : option string
}.

(** A thrown [Error]; the script reads only its [message]. *)
Record Exn : Type := { message : string }.

(** How the request of a submission settles: [fetch] rejects, or it
    resolves with a response whose [json()] rejects, or the body parses. *)
Inductive Outcome : Type :=
| FetchRejected (e : Exn)
| JsonRejected (ok : bool) (e : Exn)
| Responded (ok : bool) (result : Body).

(** [x || d] for an optional field [x]. *)
Definition or_default {A : Type} (truthy : A -> bool) (x : option A) (d : A) : A :=
  match x with
  | Some a => if truthy a then a else d
  | None => d
  end.

Definition truthy_number (n : Z) : bool := negb (n =? 0)%Z.

Definition truthy_string (s : string) : bool :=
  match s with
  | EmptyString => false
  | _ => true
  end.

(** The [TypeError] of reading a property of [undefined] (V8's wording). *)
Definition TypeError_undefined (prop : string) : Exn :=
  {| message := "Cannot read properties of undefined (reading '" ++ prop ++ "')" |}.

(** ** The functions of the script *)

(** A statement sequence that may throw: the page it leaves, and the error
    if it completed abruptly. *)
Definition Exec : Type := Page -> Page * option Exn.

(** [try { body } catch (error) { handler } finally { finalizer }] where
    neither the handler nor the finalizer throws. *)
Definition try_catch_finally (body : Exec) (handler : Exn -> Page -> Page)
  (finalizer : Page -> Page) : Page -> Page :=
  fun p =>
    let (p1, thrown) := body p in
    let p2 := match thrown with
              | Some error => handler error p1
              | None => p1
              end in
    finalizer p2.

Definition set_sections (s : Sections) (p : Page) : Page :=
  {| selection := selection p; form := form p; sections := s;
     errorMessage := errorMessage p; submitBtn := submitBtn p;
     results := results p; fetched := fetched p |}.

Definition set_selection (s : Selection) (p : Page) : Page :=
  {| selection := s; form := form p; sections := sections p;
     errorMessage := errorMessage p; submitBtn := submitBtn p;
     results := results p; fetched := fetched p |}.

Definition set_form (f : Form) (p : Page) : Page :=
  {| selection := selection p; form := f; sections := sections p;
     errorMessage := errorMessage p; submitBtn := submitBtn p;
     results := results p; fetched := fetched p |}.

Definition set_errorMessage (m : string) (p : Page) : Page :=
  {| selection := selection p; form := form p; sections := sections p;
     errorMessage := m; submitBtn := submitBtn p;
     results := results p; fetched := fetched p |}.

Definition set_submitBtn (b : SubmitBtn) (p : Page) : Page :=
  {| selection := selection p; form := form p; sections := sections p;
     errorMessage := errorMessage p; submitBtn := b;
     results := results p; fetched := fetched p |}.

Definition set_results (r : Results) (p : Page) : Page :=
  {| selection := selection p; form := form p; sections := sections p;
     errorMessage := errorMessage p; submitBtn := submitBtn p;
     results := r; fetched := fetched p |}.

Definition set_fetched (l : list FormData) (p : Page) : Page :=
  {| selection := selection p; form := form p; sections := sections p;
     errorMessage := errorMessage p; submitBtn := submitBtn p;
     results := results p; fetched := l |}.

(** [showError], lines 166-171. *)
Definition showError (msg : string) (p : Page) : Page :=
  let p := set_sections {| uploadSection := uploadSection (sections p);
                           resultsSection := resultsSection (sections p);
                           errorSection := block |} p in
  let p := set_errorMessage msg p in
  let p := set_sections {| uploadSection := none;
                           resultsSection := resultsSection (sections p);
                           errorSection := errorSection (sections p) |} p in
  set_sections {| uploadSection := uploadSection (sections p);
                  resultsSection := none;
                  errorSection := errorSection (sections p) |} p.

(** [hideError], lines 173-175. *)
Definition hideError (p : Page) : Page :=
  set_sections {| uploadSection := uploadSection (sections p);
                  resultsSection := resultsSection (sections p);
                  errorSection := none |} p.

(** [setLoading], lines 86-99. *)
Definition setLoading (loading : bool) (p : Page) : Page :=
  if loading then
    set_submitBtn {| btnText := none; btnLoader := flex; disabled := true |} p
  else
    set_submitBtn {| btnText := block; btnLoader := none; disabled := false |} p.

(** [handleFileSelect], lines 36-47. *)
Definition handleFileSelect (files : list File) (p : Page) : Page :=
  match files with
  | file :: _ =>
      if String.eqb (file_type file) "application/pdf" then
        set_selection {| currentFiles := Some files;
                         fileName := file_name file;
                         has_file := true;
                         drag_over := drag_over (selection p) |} p
      else showError "Please select a PDF file" p
  | [] => p
  end.

(** [resetForm], lines 177-185. *)
Definition resetForm (p : Page) : Page :=
  let p := set_sections {| uploadSection := block; resultsSection := none;
                           errorSection := none |} p in
  let p := set_form {| fileInput := []; bomType := bomType_default (form p);
                       bomType_default := bomType_default (form p) |} p in
  set_selection {| currentFiles := None;
                   fileName := "Choose PDF file or drag & drop";
                   has_file := false;
                   drag_over := drag_over (selection p) |} p.

(** [displayResults], lines 101-123.  The two sections are switched before
    [data] is first read, so an absent [data] throws with the switch done. *)
Definition displayResults (result : Body) : Exec :=
  fun p =>
    let data := data result in
    let files := body_files result in
    let p := set_sections {| uploadSection := none; resultsSection := block;
                             errorSection := errorSection (sections p) |} p in
    match data with
    | None => (p, Some (TypeError_undefined "total_items"))
    | Some data =>
        let total :=
          or_default truthy_number (total_items data)
            (Z.of_nat (List.length (items data))) in
        let title :=
          or_default truthy_string (document_title data) "BOM Document" in
        let p :=
          set_results {| totalItems := ToString (VNum total);
                         bomTypeDisplay := toUpperCase (bom_type data);
                         documentTitle := title;
                         dataTable := createTable (items data);
                         downloadJson := Some files;
                         downloadCsv := Some files |} p in
        (p, None)
    end.

(** The [onclick] bound to [downloadJson] / [downloadCsv]: the address the
    window navigates to, when the handler does not throw. *)
Definition click_downloadJson (p : Page) : option string :=
  match downloadJson (results p) with
  | Some (Some files) => Some ("/download/json/" ++ json files)
  | _ => None
  end.

Definition click_downloadCsv (p : Page) : option string :=
  match downloadCsv (results p) with
  | Some (Some files) => Some ("/download/csv/" ++ csv files)
  | _ => None
  end.

(** The submit handler up to [await fetch(...)], lines 50-70: the page it
    leaves and the request it has issued, if any. *)
Definition submit (p : Page) : Page * option FormData :=
  match currentFiles (selection p) with
  | None | Some [] => (showError "Please select a file" p, None)
  | Some (file :: _) =>
      let formData := {| fd_file := file; fd_bom_type := bomType (form p) |} in
      let p := setLoading true p in
      let p := hideError p in
      (set_fetched (fetched p ++ [formData]) p, Some formData)
  end.

(** What the [try] block does once the request has settled, lines 67-78. *)
Definition submit_try (o : Outcome) : Exec :=
  fun p =>
    match o with
    | FetchRejected e => (p, Some e)
    | JsonRejected _ e => (p, Some e)
    | Responded ok result =>
        if ok && success result then displayResults result p
        else
          (showError
             (or_default truthy_string (error result)
                "An error occurred during extraction") p, None)
    end.

(** The rest of the submit handler, lines 66-83, run when the request
    settles with [o]. *)
Definition submit_settled (o : Outcome) : Page -> Page :=
  try_catch_finally (submit_try o)
    (fun error => showError ("Network error: " ++ message error))
    (setLoading false).

(** ** Events *)

Definition set_drag_over (b : bool) (p : Page) : Page :=
  set_selection {| currentFiles := currentFiles (selection p);
                   fileName := fileName (selection p);
                   has_file := has_file (selection p);
                   drag_over := b |} p.

Inductive Event : Type :=
| Change (files : list File)
| DragOver
| DragLeave
| Drop (files : list File)
| Submit
| Settled (o : Outcome)
| Click_newUploadBtn
| Click_retryBtn.

(** The page and the number of requests still in flight. *)
Record World : Type := { page : Page; in_flight : nat }.

(** The listeners of lines 16-34, 50 and 188-189. *)
Definition dispatch (e : Event) (w : World) : World :=
  let p := page w in
  match e with
  | Change files =>
      let p := set_form {| fileInput := files; bomType := bomType (form p);
                           bomType_default := bomType_default (form p) |} p in
      {| page := handleFileSelect files p; in_flight := in_flight w |}
  | DragOver => {| page := set_drag_over true p; in_flight := in_flight w |}
  | DragLeave => {| page := set_drag_over false p; in_flight := in_flight w |}
  | Drop files =>
      {| page := handleFileSelect files (set_drag_over false p);
         in_flight := in_flight w |}
  | Submit =>
      let (p', request) := submit p in
      {| page := p';
         in_flight := match request with
                      | Some _ => S (in_flight w)
                      | None => in_flight w
                      end |}
  | Settled o =>
      {| page := submit_settled o p; in_flight := pred (in_flight w) |}
  | Click_newUploadBtn | Click_retryBtn =>
      {| page := resetForm p; in_flight := in_flight w |}
  end.

(** Modelled from the spec: the page markup (templates/index.html) is not
    among the sources.  Following sections 4.1, 4.2 and 4.4 of the
    specification, the picker, the drop target and the form belong to the
    upload section, "start new upload" to the results section and "retry"
    to the error section; a control can be operated only while its section
    is displayed, and the form can be submitted only while the submit
    control is enabled.  A request can settle only while one is in flight. *)
Definition enabled (e : Event) (w : World) : bool :=
  let p := page w in
  match e with
  | Change _ | DragOver | DragLeave | Drop _ =>
      visible (uploadSection (sections p))
  | Submit =>
      visible (uploadSection (sections p)) && negb (disabled (submitBtn p))
  | Settled _ => negb (in_flight w =? 0)%nat
  | Click_newUploadBtn => visible (resultsSection (sections p))
  | Click_retryBtn => visible (errorSection (sections p))
  end.

(** Modelled from the spec: the page as the markup (not among the sources)
    first shows it, in the Upload state of section 4.4, with nothing
    selected and no request issued. *)
Definition initial_page (default_mode : string) : Page :=
  {| selection := {| currentFiles := None;
                     fileName := "Choose PDF file or drag & drop";
                     has_file := false; drag_over := false |};
     form := {| fileInput := []; bomType := default_mode;
                bomType_default := default_mode |};
     sections := {| uploadSection := block; resultsSection := none;
                    errorSection := none |};
     errorMessage := "";
     submitBtn := {| btnText := block; btnLoader := none; disabled := false |};
     results := {| totalItems := ""; bomTypeDisplay := ""; documentTitle := "";
                   dataTable := ""; downloadJson := None; downloadCsv := None |};
     fetched := [] |}.

Definition initial_world : World :=
  {| page := initial_page "simple"; in_flight := 0 |}.

(** Runs a sequence of events, each of which must be enabled when it
    occurs. *)
Fixpoint run (es : list Event) (w : World) : option World :=
  match es with
  | [] => Some w
  | e :: es' => if enabled e w then run es' (dispatch e w) else None
  end.

(** A page is reachable when some enabled sequence of events leads to it. *)
Definition reachable (w : World) : Prop :=
  exists es, run es initial_world = Some w.

(** The number of sections displayed. *)
Definition shown (s : Sections) : nat :=
  (if visible (uploadSection s) then 1 else 0) +
  (if visible (resultsSection s) then 1 else 0) +
  (if visible (errorSection s) then 1 else 0).

(** ** Notions used to state the properties *)

(** The concatenation of a list of strings. *)
Definition flat (l : list string) : string := fold_right append EmptyString l.

(** The number of positions of [hay] at which [needle] occurs. *)
Fixpoint occurrences (needle hay : string) : nat :=
  (if prefix needle hay then 1 else 0) +
  match hay with
  | EmptyString => 0
  | String _ r => occurrences needle r
  end.

(** Every ["<"] of the string is followed by ["t"] or ["/"]: it can only
    open one of the tags [<tr>], [<td>], [</tr>], [</td>], [</tbody>],
    [</table>] that [createTable] writes itself. *)
Fixpoint own_tags_only (s : string) : bool :=
  match s with
  | EmptyString => true
  | String c r =>
      (if Ascii.eqb c "<" then
         match r with
         | String d _ => Ascii.eqb d "t" || Ascii.eqb d "/"
         | EmptyString => false
         end
       else true) && own_tags_only r
  end.

(** The header text as the specification words it, in one pass over the
    key: every ["_"] separates two segments and becomes one space, and the
    first unit of every segment is capitalised.  [start] tells whether the
    next unit begins a segment. *)
Fixpoint capitalize_segments (start : bool) (key : string) : string :=
  match key with
  | EmptyString => EmptyString
  | String c r =>
      if Ascii.eqb c "_" then String " " (capitalize_segments true r)
      else String (if start then upperUnit c else c)
             (capitalize_segments false r)
  end.

Definition formatHeader_spec (key : string) : string :=
  capitalize_segments true key.

(** The head and the foot [createTable] writes around the rows. *)
Definition headHtml (keys : list string) : string :=
  "<table><thead><tr>" ++
  flat (map (fun key => "<th>" ++ formatHeader key ++ "</th>") keys) ++
  "</tr></thead><tbody>".

Definition footHtml : string := "</tbody></table>".

(** The rows of a table whose every row has one cell per key of [keys]. *)
Definition rowsHtml (keys : list string) (items : list record) : string :=
  flat (map (fun item => "<tr>" ++ flat (map (cellHtml item) keys) ++ "</tr>")
          items).

(** The rows of a ragged table: each row has one cell per key of its own
    record. *)
Definition raggedRowsHtml (items : list record) : string :=
  flat (map (fun item =>
               "<tr>" ++ flat (map (cellHtml item) (Object_keys item)) ++ "</tr>")
          items).

(** The claim that a table is ragged, each row showing its own keys. *)
Definition renders_ragged (items : list record) : Prop :=
  createTable items =
  headHtml (Object_keys (hd [] items)) ++ raggedRowsHtml items ++ footHtml.

(** Exactly one of the three sections is displayed. *)
Definition exactly_one_shown (p : Page) : Prop := shown (sections p) = 1.

Definition only_error : Sections :=
  {| uploadSection := none; resultsSection := none; errorSection := block |}.

Definition only_upload : Sections :=
  {| uploadSection := block; resultsSection := none; errorSection := none |}.

Definition not_loading : SubmitBtn :=
  {| btnText := block; btnLoader := none; disabled := false |}.

(** The summary as the specification words it: [total_items] and
    [document_title] are used whenever they are present. *)
Definition summary_as_worded (d : Data) (r : Results) : Prop :=
  totalItems r =
    ToString (VNum (match total_items d with
                    | Some n => n
                    | None => Z.of_nat (List.length (items d))
                    end)) /\
  bomTypeDisplay r = toUpperCase (bom_type d) /\
  documentTitle r =
    match document_title d with
    | Some title => title
    | None => "BOM Document"
    end.

(** The handling of a completed response as the specification words it:
    Results exactly when the status is a success and [success] is true,
    otherwise Error with the [error] field whenever it is present. *)
Definition settles_as_worded (ok : bool) (result : Body) (p : Page) : Prop :=
  let p' := submit_settled (Responded ok result) p in
  if ok && success result then
    uploadSection (sections p') = none /\
    resultsSection (sections p') = block
  else
    sections p' = only_error /\
    errorMessage p' =
      match error result with
      | Some e => e
      | None => "An error occurred during extraction"
      end.

(** ** Sample inputs *)

Definition bom_pdf : File :=
  {| file_name := "bom.pdf"; file_type := "application/pdf" |}.

Definition notes_txt : File :=
  {| file_name := "notes.txt"; file_type := "text/plain" |}.

(** The success response of the scenario of section 8 of the
    specification. *)
Definition scenario_body : Body :=
  {| success := true;
     data := Some {| items := [[("part", VStr "R1"); ("qty", VNum 10)]];
                     total_items := None;
                     bom_type := "simple";
                     document_title := None |};
     body_files := Some {| json := "a1"; csv := "a1" |};
     error := None |}.

(** A success response that counts no item and has an empty title. *)
Definition zero_total_data : Data :=
  {| items := [[("part", VStr "R1"); ("qty", VNum 10)]];
     total_items := Some 0%Z;
     bom_type := "simple";
     document_title := Some "" |}.

Definition zero_total_body : Body :=
  {| success := true; data := Some zero_total_data;
     body_files := Some {| json := "a1"; csv := "a1" |}; error := None |}.

(** A body that reports success and carries no [data]. *)
Definition no_data_body : Body :=
  {| success := true; data := None; body_files := None; error := None |}.

(** A failure body whose [error] is the empty string. *)
Definition empty_error_body : Body :=
  {| success := false; data := None; body_files := None; error := Some "" |}.

(** Two records that do not have the same keys. *)
Definition mixed_items : list record :=
  [[("part", VStr "R1")]; [("qty", VNum 10); ("note", VStr "spare")]].

(** A record whose key is markup. *)
Definition markup_key : string := "<script>alert(1)</script>".

Definition markup_items : list record := [[(markup_key, VStr "<b>")]].

(** A PDF is selected and submitted; while the request is in flight a text
    file is dropped on the still displayed upload section; then the
    response arrives. *)
Definition late_response : list Event :=
  [Change [bom_pdf]; Submit; Drop [notes_txt];
   Settled (Responded true scenario_body)].

(** ** Further notions *)

(** The text has none of the four units [escapeHtml] rewrites. *)
Definition plain_text (text : string) : Prop :=
  includes "&" text = false /\
  includes (String "160" "") text = false /\
  includes "<" text = false /\
  includes ">" text = false.

(** The string ends with [>]. *)
Fixpoint ends_with_gt (s : string) : bool :=
  match s with
  | EmptyString => false
  | String c r =>
      match r with
      | EmptyString => Ascii.eqb c ">"
      | String _ _ => ends_with_gt r
      end
  end.

(** The string has no [>] before its last code unit. *)
Fixpoint gt_only_last (s : string) : bool :=
  match s with
  | EmptyString => true
  | String c r =>
      match r with
      | EmptyString => true
      | String _ _ => negb (Ascii.eqb c ">") && gt_only_last r
      end
  end.

(** Every code unit of the string is below 128. *)
Fixpoint ascii_only (s : string) : bool :=
  match s with
  | EmptyString => true
  | String c r => (nat_of_ascii c <? 128)%nat && ascii_only r
  end.

Definition is_pdf (file : File) : Prop := file_type file = "application/pdf".

Definition only_results : Sections :=
  {| uploadSection := none; resultsSection := block; errorSection := none |}.

Definition results_and_error : Sections :=
  {| uploadSection := none; resultsSection := block; errorSection := block |}.

Definition loading : SubmitBtn :=
  {| btnText := none; btnLoader := flex; disabled := true |}.

(** The selection is empty and unmarked, or it is a file list headed by a
    PDF whose name is displayed and the marker is set. *)
Definition selection_consistent (s : Selection) : Prop :=
  match currentFiles s with
  | None => has_file s = false
  | Some files =>
      has_file s = true /\
      exists file others,
        files = file :: others /\ is_pdf file /\ fileName s = file_name file
  end.

(** Two records hold the same values under every key of [keys]. *)
Definition agree_on (keys : list string) (a b : record) : Prop :=
  forall key, In key keys -> get a key = get b key.

(** ** Strings *)

Lemma append_nil_r (s : string) : s ++ "" = s.
Proof. induction s as [|c s IH]; simpl; congruence. Qed.

Lemma append_assoc (a b c : string) : (a ++ b) ++ c = a ++ (b ++ c).
Proof. induction a as [|x a IH]; simpl; congruence. Qed.

Lemma flat_app (l1 l2 : list string) : flat (l1 ++ l2) = flat l1 ++ flat l2.
Proof.
  induction l1 as [|x l1 IH]; simpl.
  - reflexivity.
  - rewrite IH. symmetry. apply append_assoc.
Qed.

Lemma forEach_append_flat {A : Type} (f : A -> string) (l : list A) :
  forall html, forEach_append f l html = html ++ flat (map f l).
Proof.
  unfold forEach_append.
  induction l as [|x l IH]; intros html; simpl.
  - symmetry. apply append_nil_r.
  - rewrite IH. apply append_assoc.
Qed.

Lemma prefix_append (n q : string) : prefix n (n ++ q) = true.
Proof.
  induction n as [|c n IH]; simpl.
  - destruct q; reflexivity.
  - destruct (ascii_dec c c); [assumption | congruence].
Qed.

Lemma prefix_inv (n h : string) :
  prefix n h = true -> exists q, h = n ++ q.
Proof.
  revert h. induction n as [|c n IH]; intros h H.
  - exists h. reflexivity.
  - destruct h as [|d h]; simpl in H; [discriminate|].
    destruct (ascii_dec c d) as [->|]; [|discriminate].
    destruct (IH _ H) as [q ->]. exists q. reflexivity.
Qed.

Lemma prefix_nil (h : string) : prefix "" h = true.
Proof. destruct h; reflexivity. Qed.

Lemma prefix_cons (c d : ascii) (n h : string) :
  prefix (String c n) (String d h) = Ascii.eqb c d && prefix n h.
Proof.
  change (prefix (String c n) (String d h))
    with (if ascii_dec c d then prefix n h else false).
  destruct (ascii_dec c d) as [->|N].
  - now rewrite Ascii.eqb_refl.
  - apply Ascii.eqb_neq in N. now rewrite N.
Qed.

Lemma includes_cons (n : string) (c : ascii) (r : string) :
  includes n (String c r) = prefix n (String c r) || includes n r.
Proof. reflexivity. Qed.

(** [includes] is the substring relation. *)
Lemma includes_spec (n h : string) :
  includes n h = true <-> exists p q, h = p ++ n ++ q.
Proof.
  split.
  - induction h as [|c h IH]; simpl; intros H.
    + destruct n; [|discriminate]. exists "", "". reflexivity.
    + apply orb_true_iff in H. destruct H as [H|H].
      * destruct (prefix_inv n (String c h) H) as [q Hq].
        exists "", q. exact Hq.
      * destruct (IH H) as (p & q & ->). exists (String c p), q. reflexivity.
  - intros (p & q & ->). induction p as [|c p IH].
    + change ("" ++ n ++ q) with (n ++ q).
      assert (E : forall h', includes n h' = prefix n h' ||
                match h' with "" => false | String _ r => includes n r end)
        by (intros h'; destruct h'; reflexivity).
      rewrite E, prefix_append. reflexivity.
    + change (includes n (String c (p ++ n ++ q)) = true).
      simpl includes. rewrite IH. apply orb_true_r.
Qed.

Lemma toUpperCase_unit (c : ascii) :
  toUpperCase (String c "") = String (upperUnit c) "".
Proof. reflexivity. Qed.

(** ** Escaping *)

Lemma own_tags_only_app (a b : string) :
  own_tags_only a = true -> own_tags_only b = true ->
  own_tags_only (a ++ b) = true.
Proof.
  intros Ha Hb. induction a as [|c a IH]; simpl in *.
  - exact Hb.
  - apply andb_true_iff in Ha. destruct Ha as [Hc Ha].
    rewrite (IH Ha), andb_true_r.
    destruct (Ascii.eqb c "<"); [|reflexivity].
    destruct a; [discriminate | exact Hc].
Qed.

Lemma own_tags_only_flat (l : list string) :
  Forall (fun s => own_tags_only s = true) l -> own_tags_only (flat l) = true.
Proof.
  induction 1 as [|s l Hs _ IH]; simpl.
  - reflexivity.
  - apply own_tags_only_app; assumption.
Qed.

Lemma escapeUnit_cases (c : ascii) :
  escapeUnit c = "&amp;" \/ escapeUnit c = "&nbsp;" \/
  escapeUnit c = "&lt;" \/ escapeUnit c = "&gt;" \/
  (escapeUnit c = String c "" /\ c <> "<"%char /\ c <> ">"%char).
Proof.
  unfold escapeUnit.
  destruct (Ascii.eqb_spec c "&"); [now left|].
  destruct (Ascii.eqb_spec c "160"); [now right; left|].
  destruct (Ascii.eqb_spec c "<"); [now right; right; left|].
  destruct (Ascii.eqb_spec c ">"); [now right; right; right; left|].
  right; right; right; right. now repeat split.
Qed.

(** The escaped text has neither ["<"] nor [">"]. *)
Lemma escapeHtml_no_angle (text : string) :
  includes "<" (escapeHtml text) = false /\
  includes ">" (escapeHtml text) = false.
Proof.
  induction text as [|c r [IH1 IH2]]; [split; reflexivity|].
  simpl escapeHtml.
  destruct (escapeUnit_cases c) as [E|[E|[E|[E|(E & N1 & N2)]]]]; rewrite E;
    cbn [append]; rewrite !includes_cons, !prefix_cons, IH1, IH2;
    try (split; reflexivity).
  apply not_eq_sym, Ascii.eqb_neq in N1, N2. rewrite N1, N2.
  split; reflexivity.
Qed.

Lemma no_lt_own_tags_only (s : string) :
  includes "<" s = false -> own_tags_only s = true.
Proof.
  induction s as [|c r IH]; [reflexivity|].
  rewrite includes_cons, prefix_cons, prefix_nil, andb_true_r.
  intros H. apply orb_false_iff in H. destruct H as [Hc Hr].
  cbn [own_tags_only]. rewrite (IH Hr), andb_true_r.
  rewrite Ascii.eqb_sym, Hc. reflexivity.
Qed.

Lemma own_tags_only_escapeHtml (text : string) :
  own_tags_only (escapeHtml text) = true.
Proof. apply no_lt_own_tags_only, escapeHtml_no_angle. Qed.

Lemma own_tags_only_no_script (s : string) :
  own_tags_only s = true -> includes "<script>" s = false.
Proof.
  induction s as [|c r IH]; [reflexivity|].
  cbn [own_tags_only]. intros H.
  apply andb_true_iff in H. destruct H as [Hc Hr].
  rewrite includes_cons, (IH Hr), orb_false_r, prefix_cons.
  rewrite Ascii.eqb_sym.
  destruct (Ascii.eqb c "<"); [|reflexivity].
  destruct r as [|d r']; [discriminate|].
  rewrite prefix_cons, Ascii.eqb_sym.
  destruct (Ascii.eqb_spec d "s") as [->|]; [discriminate | reflexivity].
Qed.

Lemma own_tags_only_cellHtml (item : record) (key : string) :
  own_tags_only (cellHtml item key) = true.
Proof.
  unfold cellHtml.
  apply (own_tags_only_app "<td>"); [reflexivity|].
  apply own_tags_only_app; [apply own_tags_only_escapeHtml | reflexivity].
Qed.

Lemma own_tags_only_rowsHtml (keys : list string) (items : list record) :
  own_tags_only (rowsHtml keys items) = true.
Proof.
  unfold rowsHtml. apply own_tags_only_flat.
  apply Forall_forall. intros s Hs. apply in_map_iff in Hs.
  destruct Hs as (item & <- & _).
  apply (own_tags_only_app "<tr>"); [reflexivity|].
  apply own_tags_only_app; [|reflexivity].
  apply own_tags_only_flat, Forall_forall. intros s Hs.
  apply in_map_iff in Hs. destruct Hs as (key & <- & _).
  apply own_tags_only_cellHtml.
Qed.

(** ** The shape of the table *)

Lemma rowHtml_flat (keys : list string) (item : record) :
  rowHtml keys item = "<tr>" ++ flat (map (cellHtml item) keys) ++ "</tr>".
Proof.
  unfold rowHtml. rewrite forEach_append_flat. apply append_assoc.
Qed.

Lemma createTable_shape (first : record) (rest : list record) :
  createTable (first :: rest) =
  headHtml (Object_keys first) ++
  rowsHtml (Object_keys first) (first :: rest) ++ footHtml.
Proof.
  unfold createTable, headHtml, rowsHtml, footHtml.
  rewrite !forEach_append_flat.
  rewrite (map_ext _ _ (rowHtml_flat (Object_keys first))).
  rewrite !append_assoc. reflexivity.
Qed.

Lemma escapeHtml_app (a b : string) :
  escapeHtml (a ++ b) = escapeHtml a ++ escapeHtml b.
Proof.
  induction a as [|c a IH]; simpl; [reflexivity|].
  rewrite IH. symmetry. apply append_assoc.
Qed.

Lemma cellHtml_cases (item : record) (key : string) :
  cellHtml item key =
  "<td>" ++
    match get item key with
    | VUndefined | VNull => "-"
    | v => escapeHtml (ToString v)
    end ++ "</td>".
Proof. unfold cellHtml. destruct (get item key); reflexivity. Qed.

Lemma occurrences_cons (n : string) (c : ascii) (r : string) :
  occurrences n (String c r) =
  (if prefix n (String c r) then 1 else 0) + occurrences n r.
Proof. reflexivity. Qed.

Lemma occurrences_td_skip (a b : string) :
  includes "<" a = false ->
  occurrences "<td>" (a ++ b) = occurrences "<td>" b.
Proof.
  induction a as [|c a IH]; [reflexivity|].
  rewrite includes_cons, prefix_cons. intros H.
  apply orb_false_iff in H. destruct H as [Hc Ha].
  rewrite prefix_nil, andb_true_r in Hc.
  cbn [append]. rewrite occurrences_cons, prefix_cons, Hc, (IH Ha).
  reflexivity.
Qed.

Lemma occurrences_td_cells (item : record) (keys : list string) (tail : string) :
  occurrences "<td>" (flat (map (cellHtml item) keys) ++ tail) =
  List.length keys + occurrences "<td>" tail.
Proof.
  induction keys as [|key keys IH]; [reflexivity|].
  cbn [map flat fold_right List.length]. fold (flat (map (cellHtml item) keys)).
  unfold cellHtml at 1.
  set (text := escapeHtml _).
  rewrite !append_assoc.
  change ("<td>" ++ text ++ "</td>" ++ flat (map (cellHtml item) keys) ++ tail)
    with (String "<" (String "t" (String "d" (String ">"
            (text ++ "</td>" ++ flat (map (cellHtml item) keys) ++ tail))))).
  rewrite !occurrences_cons, !prefix_cons, prefix_nil.
  rewrite occurrences_td_skip by apply escapeHtml_no_angle.
  change ("</td>" ++ flat (map (cellHtml item) keys) ++ tail)
    with (String "<" (String "/" (String "t" (String "d" (String ">"
            (flat (map (cellHtml item) keys) ++ tail)))))).
  rewrite !occurrences_cons, !prefix_cons, IH.
  reflexivity.
Qed.

(** Every row has one [<td>] per column, whatever the record holds. *)
Lemma rowHtml_cells (keys : list string) (item : record) :
  occurrences "<td>" (rowHtml keys item) = List.length keys.
Proof.
  rewrite rowHtml_flat.
  change ("<tr>" ++ flat (map (cellHtml item) keys) ++ "</tr>")
    with (String "<" (String "t" (String "r" (String ">"
            (flat (map (cellHtml item) keys) ++ "</tr>"))))).
  rewrite !occurrences_cons, !prefix_cons, occurrences_td_cells.
  cbn. lia.
Qed.

(** ** Header formatting *)

Lemma split_join_capitalize (s : string) :
  exists w ws,
    split "_" s = w :: ws /\
    join " " ((toUpperCase (charAt0 w) ++ slice1 w) ::
              map (fun word => toUpperCase (charAt0 word) ++ slice1 word) ws) =
      capitalize_segments true s /\
    join " " (w :: map (fun word => toUpperCase (charAt0 word) ++ slice1 word) ws) =
      capitalize_segments false s.
Proof.
  induction s as [|c r (w & ws & Hs & Ht & Hf)].
  - exists "", []. repeat split.
  - cbn [split capitalize_segments]. rewrite Hs.
    destruct (Ascii.eqb c "_").
    + exists "", (w :: ws). cbn [map]. repeat split.
      * cbn [join charAt0 slice1 toUpperCase append]. now rewrite <- Ht.
      * cbn [join append]. now rewrite <- Ht.
    + exists (String c w), ws. split; [reflexivity|].
      rewrite <- Hf. cbn [charAt0 slice1 toUpperCase append].
      destruct ws; split; reflexivity.
Qed.

Lemma formatHeader_refines (key : string) :
  formatHeader key = formatHeader_spec key.
Proof.
  unfold formatHeader, formatHeader_spec.
  destruct (split_join_capitalize key) as (w & ws & Hs & Ht & _).
  rewrite Hs. exact Ht.
Qed.

(** ** Properties of the table *)

(** C1: in every table [createTable] renders, the cell of a null or
    undefined value is the placeholder [-], the cell of any other value is
    the escaped text of [String(value)]; escaped text has neither [<] nor
    [>], a [<script>] inside a value comes out as [&lt;script&gt;], and
    the rows of the table never contain [<script>]. *)
Theorem createTable_cells_escaped (first : record) (rest : list record) :
  let items := first :: rest in
  let keys := Object_keys first in
  createTable items = headHtml keys ++ rowsHtml keys items ++ footHtml /\
  (forall (item : record) (key : string),
      cellHtml item key =
      "<td>" ++
        match get item key with
        | VUndefined | VNull => "-"
        | v => escapeHtml (ToString v)
        end ++ "</td>") /\
  (forall text : string,
      includes "<" (escapeHtml text) = false /\
      includes ">" (escapeHtml text) = false) /\
  (forall before after : string,
      escapeHtml (before ++ "<script>" ++ after) =
      escapeHtml before ++ "&lt;script&gt;" ++ escapeHtml after) /\
  includes "<script>" (rowsHtml keys items) = false.
Proof.
  intros items keys. repeat split.
  - apply createTable_shape.
  - apply cellHtml_cases.
  - apply escapeHtml_no_angle.
  - apply escapeHtml_no_angle.
  - intros before after. rewrite !escapeHtml_app. reflexivity.
  - apply own_tags_only_no_script, own_tags_only_rowsHtml.
Qed.

(** C7, as the code has it: the columns and their order are the keys of
    the first record alone, and every row, whatever keys its own record
    has, is rendered over these same columns, one [<td>] per column. *)
Theorem createTable_first_record_columns (first : record) (rest : list record) :
  let items := first :: rest in
  let keys := Object_keys first in
  createTable items = headHtml keys ++ rowsHtml keys items ++ footHtml /\
  rowsHtml keys items = flat (map (rowHtml keys) items) /\
  (forall item : record,
      rowHtml keys item = "<tr>" ++ flat (map (cellHtml item) keys) ++ "</tr>" /\
      occurrences "<td>" (rowHtml keys item) = List.length keys).
Proof.
  intros items keys. repeat split.
  - apply createTable_shape.
  - unfold rowsHtml. f_equal. apply map_ext. intros item.
    symmetry. apply rowHtml_flat.
  - apply rowHtml_flat.
  - apply rowHtml_cells.
Qed.

(** C7, as worded, fails: the second record of [mixed_items] has the keys
    [qty] and [note], yet its row is the single cell of the column [part],
    holding the placeholder. *)
Lemma createTable_mixed_not_ragged :
  createTable mixed_items =
    "<table><thead><tr><th>Part</th></tr></thead><tbody><tr><td>R1</td></tr><tr><td>-</td></tr></tbody></table>" /\
  headHtml (Object_keys (hd [] mixed_items)) ++ raggedRowsHtml mixed_items ++ footHtml =
    "<table><thead><tr><th>Part</th></tr></thead><tbody><tr><td>R1</td></tr><tr><td>10</td><td>spare</td></tr></tbody></table>" /\
  ~ renders_ragged mixed_items.
Proof.
  split; [reflexivity|]. split; [reflexivity|].
  unfold renders_ragged. vm_compute. discriminate.
Qed.

(** C9: [formatHeader] is the function that splits the key on [_],
    capitalises the first letter of each segment and joins the segments
    with single spaces. *)
Theorem formatHeader_capitalizes :
  (forall key : string, formatHeader key = formatHeader_spec key) /\
  formatHeader "unit_cost" = "Unit Cost" /\
  formatHeader "qty" = "Qty" /\
  formatHeader "document_title" = "Document Title".
Proof.
  split; [exact formatHeader_refines|]. repeat split.
Qed.

(** C10: the header cells hold [formatHeader key] as it is, with no
    escaping; the table of [markup_items] contains the markup of its key
    raw inside [<th>], and does not contain its escaped form. *)
Theorem createTable_header_unescaped :
  (forall (first : record) (rest : list record),
      createTable (first :: rest) =
      "<table><thead><tr>" ++
      flat (map (fun key => "<th>" ++ formatHeader key ++ "</th>")
              (Object_keys first)) ++
      "</tr></thead><tbody>" ++
      rowsHtml (Object_keys first) (first :: rest) ++ footHtml) /\
  Object_keys (hd [] markup_items) = [markup_key] /\
  includes "<script>" markup_key = true /\
  includes ("<th>" ++ markup_key ++ "</th>") (createTable markup_items) = true /\
  includes (escapeHtml markup_key) (createTable markup_items) = false.
Proof.
  split.
  - intros first rest. rewrite createTable_shape. unfold headHtml.
    rewrite !append_assoc. reflexivity.
  - repeat split; vm_compute; reflexivity.
Qed.

(** ** Properties of the controller *)

Lemma showError_sections (msg : string) (p : Page) :
  sections (showError msg p) = only_error.
Proof. reflexivity. Qed.

Lemma showError_exactly_one (msg : string) (p : Page) :
  exactly_one_shown (showError msg p).
Proof. reflexivity. Qed.

Lemma resetForm_sections (p : Page) : sections (resetForm p) = only_upload.
Proof. reflexivity. Qed.

Lemma resetForm_exactly_one (p : Page) : exactly_one_shown (resetForm p).
Proof. reflexivity. Qed.

(** [displayResults] switches two sections and leaves the third as it
    finds it. *)
Lemma displayResults_sections (result : Body) (p : Page) :
  sections (fst (displayResults result p)) =
  {| uploadSection := none; resultsSection := block;
     errorSection := errorSection (sections p) |}.
Proof. unfold displayResults. destruct (data result); reflexivity. Qed.

(** [displayResults] leaves exactly one section displayed when the error
    section was hidden before. *)
Lemma displayResults_exactly_one (result : Body) (p : Page) :
  errorSection (sections p) = none ->
  exactly_one_shown (fst (displayResults result p)).
Proof.
  intros H. unfold exactly_one_shown.
  rewrite displayResults_sections, H. reflexivity.
Qed.

(** Whatever the [try] block does, the [finally] block leaves the submit
    control enabled with its label restored. *)
Lemma finally_setLoading (body : Exec) (handler : Exn -> Page -> Page) (p : Page) :
  submitBtn (try_catch_finally body handler (setLoading false) p) = not_loading.
Proof.
  unfold try_catch_finally. destruct (body p) as [p1 [e|]]; reflexivity.
Qed.

(** C2, violated by the code: [late_response] is a sequence of events each
    enabled when it occurs, and it ends with the Results and the Error
    sections both displayed, because [displayResults] does not hide the
    error section that [showError] displayed while the request was in
    flight. *)
Theorem late_response_shows_two_sections :
  exists w : World,
    run late_response initial_world = Some w /\
    reachable w /\
    sections (page w) =
      {| uploadSection := none; resultsSection := block;
         errorSection := block |} /\
    errorMessage (page w) = "Please select a PDF file" /\
    shown (sections (page w)) = 2 /\
    ~ exactly_one_shown (page w).
Proof.
  eexists. split; [reflexivity|]. split; [exists late_response; reflexivity|].
  repeat split. unfold exactly_one_shown. cbn. discriminate.
Qed.

(** C4: submitting while no file is selected shows the error
    [Please select a file], issues no request and does not enter the
    loading state. *)
Theorem submit_without_file (p : Page)
  (H : currentFiles (selection p) = None \/ currentFiles (selection p) = Some []) :
  submit p = (showError "Please select a file" p, None) /\
  errorMessage (fst (submit p)) = "Please select a file" /\
  sections (fst (submit p)) = only_error /\
  fetched (fst (submit p)) = fetched p /\
  submitBtn (fst (submit p)) = submitBtn p /\
  forall n : nat,
    in_flight (dispatch Submit {| page := p; in_flight := n |}) = n /\
    fetched (page (dispatch Submit {| page := p; in_flight := n |})) = fetched p.
Proof.
  assert (E : submit p = (showError "Please select a file" p, None)).
  { unfold submit. destruct H as [-> | ->]; reflexivity. }
  split; [exact E|]. rewrite E. repeat split; cbn; rewrite E; reflexivity.
Qed.

Lemma submit_without_file_witness :
  submit (initial_page "simple") =
    (showError "Please select a file" (initial_page "simple"), None) /\
  fetched (fst (submit (initial_page "simple"))) = [].
Proof.
  destruct (submit_without_file (initial_page "simple") (or_introl eq_refl))
    as (E & _ & _ & F & _).
  split; [exact E | exact F].
Defined.

(** C5: a submission with a file selected issues its request and enters
    the loading state; however the request settles, and whatever the page
    has become meanwhile, the second half of the handler leaves the submit
    control enabled and its label restored. *)
Theorem loading_always_exited (p : Page) (file : File) (others : list File)
  (H : currentFiles (selection p) = Some (file :: others)) :
  snd (submit p) = Some {| fd_file := file; fd_bom_type := bomType (form p) |} /\
  submitBtn (fst (submit p)) =
    {| btnText := none; btnLoader := flex; disabled := true |} /\
  forall (o : Outcome) (p' : Page), submitBtn (submit_settled o p') = not_loading.
Proof.
  unfold submit. rewrite H. repeat split.
  intros o p'. apply finally_setLoading.
Qed.

Lemma loading_always_exited_witness :
  let p := handleFileSelect [bom_pdf] (initial_page "simple") in
  disabled (submitBtn (fst (submit p))) = true /\
  disabled (submitBtn (submit_settled (Responded true scenario_body)
                         (fst (submit p)))) = false /\
  disabled (submitBtn (submit_settled (Responded true no_data_body)
                         (fst (submit p)))) = false /\
  disabled (submitBtn (submit_settled (Responded false empty_error_body)
                         (fst (submit p)))) = false /\
  disabled (submitBtn (submit_settled (FetchRejected {| message := "Failed to fetch" |})
                         (fst (submit p)))) = false.
Proof.
  intros p.
  destruct (loading_always_exited p bom_pdf [] eq_refl) as (_ & L & X).
  rewrite L, !X. repeat split.
Defined.

(** C8: a file list whose first file is not a PDF, whether picked or
    dropped, shows the error [Please select a PDF file] and leaves
    [currentFiles], the displayed file name and the [has-file] marker as
    they were. *)
Theorem handleFileSelect_rejects_non_pdf
  (files : list File) (file : File) (others : list File) (p : Page)
  (Hfiles : files = file :: others)
  (Htype : file_type file <> "application/pdf") :
  handleFileSelect files p = showError "Please select a PDF file" p /\
  sections (handleFileSelect files p) = only_error /\
  errorMessage (handleFileSelect files p) = "Please select a PDF file" /\
  selection (handleFileSelect files p) = selection p /\
  forall (n : nat) (e : Event), e = Change files \/ e = Drop files ->
    let p' := page (dispatch e {| page := p; in_flight := n |}) in
    sections p' = only_error /\
    errorMessage p' = "Please select a PDF file" /\
    currentFiles (selection p') = currentFiles (selection p) /\
    fileName (selection p') = fileName (selection p) /\
    has_file (selection p') = has_file (selection p).
Proof.
  assert (E : forall q, handleFileSelect files q =
                        showError "Please select a PDF file" q).
  { intros q. subst files. unfold handleFileSelect.
    apply String.eqb_neq in Htype. rewrite Htype. reflexivity. }
  rewrite E. repeat split.
  all: destruct H as [-> | ->]; cbn [dispatch page]; rewrite E; reflexivity.
Qed.

Lemma handleFileSelect_rejects_non_pdf_witness :
  let p := handleFileSelect [bom_pdf] (initial_page "simple") in
  currentFiles (selection (handleFileSelect [notes_txt; bom_pdf] p)) = Some [bom_pdf] /\
  fileName (selection (handleFileSelect [notes_txt; bom_pdf] p)) = "bom.pdf" /\
  errorMessage (handleFileSelect [notes_txt; bom_pdf] p) = "Please select a PDF file".
Proof.
  intros p.
  assert (N : file_type notes_txt <> "application/pdf") by (vm_compute; discriminate).
  destruct (handleFileSelect_rejects_non_pdf [notes_txt; bom_pdf] notes_txt
              [bom_pdf] p eq_refl N) as (_ & _ & M & S & _).
  rewrite S, M. repeat split.
Defined.

(** ** Properties of the response handling *)

(** C3, as the code has it: [displayResults] given a body with [data]
    completes normally; the total shown is [total_items] when it is present
    and not zero and the number of items otherwise, the mode is [bom_type]
    in upper case, and the title is [document_title] when it is present and
    not empty and [BOM Document] otherwise. *)
Theorem displayResults_summary (result : Body) (d : Data) (p : Page)
  (H : data result = Some d) :
  exists p' : Page,
    displayResults result p = (p', None) /\
    totalItems (results p') =
      ToString (VNum (match total_items d with
                      | Some n =>
                          if (n =? 0)%Z then Z.of_nat (List.length (items d))
                          else n
                      | None => Z.of_nat (List.length (items d))
                      end)) /\
    bomTypeDisplay (results p') = toUpperCase (bom_type d) /\
    documentTitle (results p') =
      match document_title d with
      | Some EmptyString | None => "BOM Document"
      | Some title => title
      end.
Proof.
  unfold displayResults. rewrite H. eexists. split; [reflexivity|].
  cbn [results set_results totalItems bomTypeDisplay documentTitle].
  repeat split.
  - unfold or_default, truthy_number.
    destruct (total_items d) as [n|]; [|reflexivity].
    destruct (n =? 0)%Z; reflexivity.
  - unfold or_default, truthy_string.
    destruct (document_title d) as [[|c t]|]; reflexivity.
Qed.

Lemma displayResults_summary_witness :
  totalItems (results (fst (displayResults scenario_body (initial_page "simple")))) = "1" /\
  bomTypeDisplay (results (fst (displayResults scenario_body (initial_page "simple")))) = "SIMPLE" /\
  documentTitle (results (fst (displayResults scenario_body (initial_page "simple")))) = "BOM Document".
Proof.
  destruct (displayResults_summary scenario_body _ (initial_page "simple") eq_refl)
    as (p' & E & T & B & D).
  rewrite E. cbn [fst]. rewrite T, B, D. repeat split.
Defined.

(** C3, as worded, fails: [zero_total_body] has [total_items] 0 and an
    empty [document_title], both present, and one item; the total shown is
    [1] and the title shown is [BOM Document]. *)
Lemma displayResults_zero_total :
  let r := results (fst (displayResults zero_total_body (initial_page "simple"))) in
  total_items zero_total_data = Some 0%Z /\
  totalItems r = "1" /\
  document_title zero_total_data = Some "" /\
  documentTitle r = "BOM Document" /\
  ~ summary_as_worded zero_total_data r.
Proof.
  cbv zeta. repeat split.
  intros (T & _). vm_compute in T. discriminate.
Qed.

(** C6, as the code has it: for a body that carries [data] whenever its
    [success] is true, handled while the Error section is hidden, the page
    ends in Results, the Results section alone displayed and the table
    built from the items of the body, exactly when the status is a success
    and [success] is true; in every other case it ends in Error, the Error
    section alone displayed, with the [error] field when it is present and
    not empty, and with the generic message otherwise. *)
Theorem submit_settled_response (ok : bool) (result : Body) (p : Page)
  (Herror : errorSection (sections p) = none)
  (Hdata : success result = true -> exists d, data result = Some d) :
  let p' := submit_settled (Responded ok result) p in
  if ok && success result then
    sections p' = only_results /\
    option_map (fun d => createTable (items d)) (data result) =
      Some (dataTable (results p'))
  else
    sections p' = only_error /\
    errorMessage p' =
      match error result with
      | Some EmptyString | None => "An error occurred during extraction"
      | Some e => e
      end.
Proof.
  unfold submit_settled, try_catch_finally, submit_try.
  destruct ok, (success result) eqn:S; cbn [andb];
    try (split; [reflexivity|];
         destruct (error result) as [[|c e]|]; reflexivity).
  destruct (Hdata eq_refl) as [d D].
  unfold displayResults. rewrite D. cbn. rewrite Herror. split; reflexivity.
Qed.

Lemma submit_settled_response_witness :
  let p := fst (submit (handleFileSelect [bom_pdf] (initial_page "simple"))) in
  sections (submit_settled (Responded true scenario_body) p) = only_results /\
  Some (dataTable (results (submit_settled (Responded true scenario_body) p))) =
    Some "<table><thead><tr><th>Part</th><th>Qty</th></tr></thead><tbody><tr><td>R1</td><td>10</td></tr></tbody></table>" /\
  sections (submit_settled (Responded true empty_error_body) p) = only_error.
Proof.
  intros p.
  pose proof (submit_settled_response true scenario_body p eq_refl
                (fun _ => ex_intro _ _ eq_refl)) as [S T].
  pose proof (submit_settled_response true empty_error_body p eq_refl
                (fun H : success empty_error_body = true =>
                   False_ind _ (Bool.diff_false_true H))) as [E _].
  split; [exact S|]. split; [|exact E].
  symmetry. exact T.
Defined.

(** C6, as worded, fails: [empty_error_body] reports a failure and has an
    [error] field, the empty string; the message shown is the generic one,
    not the field. *)
Lemma submit_settled_not_as_worded :
  let p := fst (submit (handleFileSelect [bom_pdf] (initial_page "simple"))) in
  success empty_error_body = false /\
  error empty_error_body = Some "" /\
  errorMessage (submit_settled (Responded true empty_error_body) p) =
    "An error occurred during extraction" /\
  ~ settles_as_worded true empty_error_body p.
Proof.
  cbv zeta. repeat split.
  intros (_ & M). vm_compute in M. discriminate.
Qed.

(** ** The scenarios of the specification *)

Example scenario_success :
  exists w : World,
    run [Change [bom_pdf]; Submit; Settled (Responded true scenario_body)]
      initial_world = Some w /\
    sections (page w) =
      {| uploadSection := none; resultsSection := block; errorSection := none |} /\
    fetched (page w) = [{| fd_file := bom_pdf; fd_bom_type := "simple" |}] /\
    dataTable (results (page w)) =
      "<table><thead><tr><th>Part</th><th>Qty</th></tr></thead><tbody><tr><td>R1</td><td>10</td></tr></tbody></table>" /\
    click_downloadJson (page w) = Some "/download/json/a1" /\
    click_downloadCsv (page w) = Some "/download/csv/a1".
Proof. eexists. repeat split. Qed.

Example scenario_unreadable :
  let body := {| success := false; data := None; body_files := None;
                 error := Some "Unreadable PDF" |} in
  exists w : World,
    run [Change [bom_pdf]; Submit; Settled (Responded true body)]
      initial_world = Some w /\
    sections (page w) = only_error /\
    errorMessage (page w) = "Unreadable PDF".
Proof. eexists. repeat split. Qed.

Example scenario_empty : createTable [] = "<p>No items found</p>".
Proof. reflexivity. Qed.

Example scenario_reset :
  forall p : Page,
    let after_error := resetForm (showError "Unreadable PDF" p) in
    let after_results := resetForm (fst (displayResults scenario_body p)) in
    sections after_error = sections after_results /\
    selection after_error = selection after_results /\
    form after_error = form after_results.
Proof. intros p. repeat split. Qed.

(** ** More on escaping *)

Lemma length_append (a b : string) :
  String.length (a ++ b) = String.length a + String.length b.
Proof. induction a as [|c a IH]; simpl; congruence. Qed.

Lemma includes_unit (a c : ascii) (r : string) :
  includes (String a "") (String c r) =
  Ascii.eqb a c || includes (String a "") r.
Proof. now rewrite includes_cons, prefix_cons, prefix_nil, andb_true_r. Qed.

Lemma escapeUnit_spec (c : ascii) :
  (c = "&"%char /\ escapeUnit c = "&amp;") \/
  (c = "160"%char /\ escapeUnit c = "&nbsp;") \/
  (c = "<"%char /\ escapeUnit c = "&lt;") \/
  (c = ">"%char /\ escapeUnit c = "&gt;") \/
  ((c <> "&"%char /\ c <> "160"%char) /\ c <> "<"%char /\ c <> ">"%char /\
   escapeUnit c = String c "").
Proof.
  unfold escapeUnit.
  destruct (Ascii.eqb_spec c "&"); [now left|].
  destruct (Ascii.eqb_spec c "160"); [now right; left|].
  destruct (Ascii.eqb_spec c "<"); [now right; right; left|].
  destruct (Ascii.eqb_spec c ">"); [now right; right; right; left|].
  now right; right; right; right.
Qed.

Lemma escapeHtml_inj (a b : string) :
  escapeHtml a = escapeHtml b -> a = b.
Proof.
  revert b. induction a as [|c a IH]; intros [|d b] H.
  - reflexivity.
  - exfalso. cbn [escapeHtml] in H.
    destruct (escapeUnit_spec d) as [[_ E]|[[_ E]|[[_ E]|[[_ E]|(_ & _ & _ & E)]]]];
      rewrite E in H; discriminate.
  - exfalso. cbn [escapeHtml] in H.
    destruct (escapeUnit_spec c) as [[_ E]|[[_ E]|[[_ E]|[[_ E]|(_ & _ & _ & E)]]]];
      rewrite E in H; discriminate.
  - cbn [escapeHtml] in H.
    destruct (escapeUnit_spec c) as [[-> E]|[[-> E]|[[-> E]|[[-> E]|([C1 C0] & C2 & C3 & E)]]]];
    destruct (escapeUnit_spec d) as [[-> F]|[[-> F]|[[-> F]|[[-> F]|([D1 D0] & D2 & D3 & F)]]]];
      rewrite ?E, ?F in H; cbn [append] in H; try discriminate;
      inversion H; subst;
      first [congruence | f_equal; apply IH; assumption].
Qed.

(** X1: [escapeHtml] loses nothing: two texts with the same escaped form
    are the same text. *)
Theorem escapeHtml_injective (a b : string) :
  escapeHtml a = escapeHtml b <-> a = b.
Proof.
  split.
  - apply escapeHtml_inj.
  - intros ->. reflexivity.
Qed.

Lemma escapeHtml_injective_witness :
  "a<b & c" = "a<b & c".
Proof. apply (escapeHtml_injective "a<b & c" "a<b & c"). reflexivity. Defined.

Lemma escapeHtml_length_ge (text : string) :
  String.length text <= String.length (escapeHtml text).
Proof.
  induction text as [|c r IH]; [reflexivity|].
  cbn [escapeHtml]. rewrite length_append.
  destruct (escapeUnit_spec c) as [[_ E]|[[_ E]|[[_ E]|[[_ E]|(_ & _ & _ & E)]]]];
    rewrite E; simpl String.length; lia.
Qed.

(** X3: escaping never shortens a text and makes it at most six times as
    long, the length of [&nbsp;] for one no-break space. *)
Theorem escapeHtml_length (text : string) :
  String.length text <= String.length (escapeHtml text) <=
  6 * String.length text.
Proof.
  induction text as [|c r IH]; [simpl; lia|].
  cbn [escapeHtml]. rewrite length_append.
  destruct (escapeUnit_spec c) as [[_ E]|[[_ E]|[[_ E]|[[_ E]|(_ & _ & _ & E)]]]];
    rewrite E; simpl String.length; lia.
Qed.

Lemma escapeHtml_plain (text : string) :
  escapeHtml text = text <-> plain_text text.
Proof.
  unfold plain_text. induction text as [|c r IH].
  - split; [repeat split | reflexivity].
  - rewrite !includes_unit. cbn [escapeHtml]. split.
    + intros H.
      destruct (escapeUnit_spec c) as [[-> E]|[[-> E]|[[-> E]|[[-> E]|([C1 C0] & C2 & C3 & E)]]]];
        rewrite E in H; cbn [append] in H; try discriminate.
      * exfalso. injection H as H. apply (f_equal String.length) in H.
        cbn [String.length] in H. pose proof (escapeHtml_length_ge r). lia.
      * injection H as H. apply IH in H. destruct H as (H1 & H0 & H2 & H3).
        apply not_eq_sym, Ascii.eqb_neq in C1, C0, C2, C3.
        rewrite C1, C0, C2, C3, H1, H0, H2, H3. repeat split.
    + intros (H1 & H0 & H2 & H3).
      apply orb_false_iff in H1, H0, H2, H3.
      destruct H1 as [C1 H1], H0 as [C0 H0], H2 as [C2 H2], H3 as [C3 H3].
      unfold escapeUnit. rewrite Ascii.eqb_sym, C1, Ascii.eqb_sym, C0,
        Ascii.eqb_sym, C2, Ascii.eqb_sym, C3. cbn [append]. f_equal.
      now apply IH.
Qed.

(** X2: escaping leaves a text as it is exactly when the text has none of
    [&], the no-break space, [<], [>]; and escaping an escaped text changes
    it again exactly when the text has one of them: a text escaped twice is
    shown with its entities spelled out. *)
Theorem escapeHtml_fixed_points (text : string) :
  (escapeHtml text = text <-> plain_text text) /\
  (escapeHtml (escapeHtml text) = escapeHtml text <-> plain_text text).
Proof.
  split; [apply escapeHtml_plain|].
  rewrite <- escapeHtml_plain. split.
  - apply escapeHtml_inj.
  - intros H. now rewrite !H.
Qed.

Lemma escapeHtml_fixed_points_witness :
  escapeHtml "R1 10k" = "R1 10k" /\
  escapeHtml (escapeHtml "R1 10k") = escapeHtml "R1 10k".
Proof.
  destruct (escapeHtml_fixed_points "R1 10k") as [[_ H1] [_ H2]].
  split; [apply H1 | apply H2]; repeat split.
Defined.

(** ** More on header formatting *)

Lemma upperUnit_idempotent (c : ascii) : upperUnit (upperUnit c) = upperUnit c.
Proof. destruct c as [[] [] [] [] [] [] [] []]; reflexivity. Qed.

Lemma upperUnit_eqb_underscore (c : ascii) :
  Ascii.eqb (upperUnit c) "_" = Ascii.eqb c "_".
Proof. destruct c as [[] [] [] [] [] [] [] []]; reflexivity. Qed.

Lemma upperUnit_eqb_lt (c : ascii) :
  Ascii.eqb (upperUnit c) "<" = Ascii.eqb c "<".
Proof. destruct c as [[] [] [] [] [] [] [] []]; reflexivity. Qed.

Lemma capitalize_segments_length (start : bool) (key : string) :
  String.length (capitalize_segments start key) = String.length key.
Proof.
  revert start. induction key as [|c r IH]; intros start; [reflexivity|].
  cbn [capitalize_segments]. destruct (Ascii.eqb c "_"); simpl; now rewrite IH.
Qed.

Lemma capitalize_segments_no_underscore (start : bool) (key : string) :
  includes "_" (capitalize_segments start key) = false.
Proof.
  revert start. induction key as [|c r IH]; intros start; [reflexivity|].
  cbn [capitalize_segments]. destruct (Ascii.eqb c "_") eqn:E.
  - rewrite includes_unit, IH. reflexivity.
  - rewrite includes_unit, IH, orb_false_r, Ascii.eqb_sym.
    destruct start; [rewrite upperUnit_eqb_underscore|]; exact E.
Qed.

Lemma capitalize_segments_app (start : bool) (a b : string) :
  capitalize_segments start (a ++ "_" ++ b) =
  capitalize_segments start a ++ " " ++ capitalize_segments true b.
Proof.
  revert start. induction a as [|c a IH]; intros start; [reflexivity|].
  cbn [append capitalize_segments].
  destruct (Ascii.eqb c "_"); cbn [append]; now rewrite IH.
Qed.

Lemma capitalize_segments_rest (key : string) :
  includes "_" key = false -> capitalize_segments false key = key.
Proof.
  induction key as [|c r IH]; [reflexivity|].
  rewrite includes_unit. intros H. apply orb_false_iff in H.
  destruct H as [Hc Hr]. cbn [capitalize_segments].
  rewrite Ascii.eqb_sym, Hc, (IH Hr). reflexivity.
Qed.

(** X4: the header of a key made of ASCII code units is as long as the
    key; and the header of any key has no [_] left. *)
Theorem formatHeader_length (key : string) :
  (ascii_only key = true ->
   String.length (formatHeader key) = String.length key) /\
  includes "_" (formatHeader key) = false.
Proof.
  rewrite formatHeader_refines. unfold formatHeader_spec. split.
  - intros _. apply capitalize_segments_length.
  - apply capitalize_segments_no_underscore.
Qed.

Lemma formatHeader_length_witness :
  String.length (formatHeader "unit_cost") = 9 /\
  includes "_" (formatHeader "unit_cost") = false.
Proof.
  destruct (formatHeader_length "unit_cost") as [L U].
  split; [exact (L eq_refl) | exact U].
Defined.

(** X5: formatting works segment by segment: the header of two keys
    joined by [_] is their two headers joined by a space. *)
Theorem formatHeader_app (a b : string) :
  formatHeader (a ++ "_" ++ b) = formatHeader a ++ " " ++ formatHeader b.
Proof.
  rewrite !formatHeader_refines. apply capitalize_segments_app.
Qed.

(** X6: formatting a header again does not change it. *)
Theorem formatHeader_idempotent (key : string) :
  formatHeader (formatHeader key) = formatHeader key.
Proof.
  rewrite !formatHeader_refines. unfold formatHeader_spec.
  pose proof (capitalize_segments_no_underscore true key) as N.
  destruct key as [|c r]; [reflexivity|].
  cbn [capitalize_segments] in *.
  destruct (Ascii.eqb c "_") eqn:E.
  - rewrite includes_unit in N. apply orb_false_iff in N. destruct N as [_ N].
    cbn [capitalize_segments]. change (Ascii.eqb " " "_") with false.
    cbv iota. rewrite (capitalize_segments_rest _ N). reflexivity.
  - rewrite includes_unit in N. apply orb_false_iff in N. destruct N as [_ N].
    cbn [capitalize_segments].
    rewrite upperUnit_eqb_underscore, E, upperUnit_idempotent.
    rewrite (capitalize_segments_rest _ N). reflexivity.
Qed.

Lemma capitalize_segments_no_lt (start : bool) (key : string) :
  includes "<" key = false ->
  includes "<" (capitalize_segments start key) = false.
Proof.
  revert start. induction key as [|c r IH]; intros start; [reflexivity|].
  rewrite includes_unit. intros H. apply orb_false_iff in H.
  destruct H as [Hc Hr]. cbn [capitalize_segments].
  destruct (Ascii.eqb c "_").
  - rewrite includes_unit, (IH _ Hr). reflexivity.
  - rewrite includes_unit, (IH _ Hr), orb_false_r, Ascii.eqb_sym.
    destruct start; [rewrite upperUnit_eqb_lt|]; now rewrite Ascii.eqb_sym.
Qed.

(** ** More on the table *)

Lemma append_inv_tail (a b t : string) : a ++ t = b ++ t -> a = b.
Proof.
  revert b. induction a as [|c a IH]; intros [|d b] H.
  - reflexivity.
  - exfalso. apply (f_equal String.length) in H.
    cbn [append String.length] in H. rewrite length_append in H. lia.
  - exfalso. apply (f_equal String.length) in H.
    cbn [append String.length] in H. rewrite length_append in H. lia.
  - cbn [append] in H. injection H as -> H. f_equal. now apply IH.
Qed.

(** X7: the empty-state message is rendered for the empty list and for
    no other list. *)
Theorem createTable_empty_iff (items : list record) :
  createTable items = "<p>No items found</p>" <-> items = [].
Proof.
  split.
  - destruct items as [|first rest]; [reflexivity|].
    rewrite createTable_shape. unfold headHtml. cbn [append]. discriminate.
  - intros ->. reflexivity.
Qed.

Lemma createTable_empty_iff_witness : createTable [] = "<p>No items found</p>".
Proof. apply (createTable_empty_iff []). reflexivity. Defined.




Lemma occurrences_lt_skip (n a b : string) :
  includes "<" a = false ->
  occurrences (String "<" n) (a ++ b) = occurrences (String "<" n) b.
Proof.
  induction a as [|c a IH]; [reflexivity|].
  rewrite includes_unit. intros H.
  apply orb_false_iff in H. destruct H as [Hc Ha].
  cbn [append]. rewrite occurrences_cons, prefix_cons, Hc, (IH Ha).
  reflexivity.
Qed.

Lemma occurrences_tr_cells (item : record) (keys : list string) (tail : string) :
  occurrences "<tr>" (flat (map (cellHtml item) keys) ++ tail) =
  occurrences "<tr>" tail.
Proof.
  induction keys as [|key keys IH]; [reflexivity|].
  cbn [map flat fold_right]. fold (flat (map (cellHtml item) keys)).
  unfold cellHtml at 1.
  set (text := escapeHtml _).
  rewrite !append_assoc.
  change ("<td>" ++ text ++ "</td>" ++ flat (map (cellHtml item) keys) ++ tail)
    with (String "<" (String "t" (String "d" (String ">"
            (text ++ "</td>" ++ flat (map (cellHtml item) keys) ++ tail))))).
  rewrite !occurrences_cons, !prefix_cons.
  rewrite (occurrences_lt_skip "tr>") by apply escapeHtml_no_angle.
  change ("</td>" ++ flat (map (cellHtml item) keys) ++ tail)
    with (String "<" (String "/" (String "t" (String "d" (String ">"
            (flat (map (cellHtml item) keys) ++ tail)))))).
  rewrite !occurrences_cons, !prefix_cons, IH.
  reflexivity.
Qed.

Lemma occurrences_row (keys : list string) (item : record) (tail : string) :
  occurrences "<tr>"
    (("<tr>" ++ flat (map (cellHtml item) keys) ++ "</tr>") ++ tail) =
    1 + occurrences "<tr>" tail /\
  occurrences "<td>"
    (("<tr>" ++ flat (map (cellHtml item) keys) ++ "</tr>") ++ tail) =
    List.length keys + occurrences "<td>" tail.
Proof.
  rewrite !append_assoc.
  change ("<tr>" ++ flat (map (cellHtml item) keys) ++ "</tr>" ++ tail)
    with (String "<" (String "t" (String "r" (String ">"
            (flat (map (cellHtml item) keys) ++ "</tr>" ++ tail))))).
  rewrite !occurrences_cons, !prefix_cons, prefix_nil.
  rewrite occurrences_tr_cells, occurrences_td_cells.
  change ("</tr>" ++ tail)
    with (String "<" (String "/" (String "t" (String "r" (String ">" tail))))).
  rewrite !occurrences_cons, !prefix_cons.
  split; cbn; lia.
Qed.

Lemma rowsHtml_occurrences (keys : list string) (items : list record) :
  occurrences "<tr>" (rowsHtml keys items) = List.length items /\
  occurrences "<td>" (rowsHtml keys items) =
    List.length items * List.length keys.
Proof.
  unfold rowsHtml. induction items as [|item items [IH1 IH2]].
  - split; reflexivity.
  - cbn [map flat fold_right List.length].
    destruct (occurrences_row keys item
                (flat (map (fun item0 => "<tr>" ++
                   flat (map (cellHtml item0) keys) ++ "</tr>") items)))
      as [R D].
    unfold flat in R, D |- *. rewrite R, D.
    unfold flat in IH1, IH2. rewrite IH1, IH2. split; lia.
Qed.

Lemma prefix_app_closed (n s b : string) :
  gt_only_last n = true -> ends_with_gt s = true ->
  prefix n (s ++ b) = prefix n s.
Proof.
  revert n. induction s as [|c r IH]; intros n Hn Hs; [discriminate|].
  destruct n as [|d n']; [now rewrite !prefix_nil|].
  cbn [append]. rewrite !prefix_cons.
  destruct r as [|c2 r2].
  - cbn [ends_with_gt] in Hs. apply Ascii.eqb_eq in Hs. subst c.
    destruct n' as [|e n'']; [now rewrite !prefix_nil|].
    cbn [gt_only_last] in Hn. apply andb_true_iff in Hn.
    destruct Hn as [Hd _]. apply negb_true_iff in Hd. now rewrite Hd.
  - f_equal. apply IH; [|exact Hs].
    destruct n' as [|e n'']; [reflexivity|].
    cbn [gt_only_last] in Hn. apply andb_true_iff in Hn. apply Hn.
Qed.

Section Occurrences.

(** A needle that opens with [<] and has its only [>] at its end, as
    the tags [<tr>], [<td>] and [<th>] do. *)
Variable rest_of_tag : string.
Let tag : string := String "<" rest_of_tag.
Hypothesis tag_closed : gt_only_last tag = true.

Lemma occurrences_app_closed (a b : string) :
  ends_with_gt a = true ->
  occurrences tag (a ++ b) = occurrences tag a + occurrences tag b.
Proof.
  induction a as [|c r IH]; intros Ha; [discriminate|].
  cbn [append]. rewrite !occurrences_cons.
  change (String c (r ++ b)) with (String c r ++ b).
  rewrite (prefix_app_closed tag (String c r) b tag_closed Ha).
  destruct r as [|c2 r2].
  - cbn [append occurrences]. unfold tag at 4. cbn [prefix]. lia.
  - rewrite IH by exact Ha. lia.
Qed.

Lemma occurrences_element (opening closing text tail : string) :
  ends_with_gt opening = true -> ends_with_gt closing = true ->
  includes "<" text = false ->
  occurrences tag ((opening ++ text ++ closing) ++ tail) =
  occurrences tag opening + occurrences tag closing + occurrences tag tail.
Proof.
  intros Ho Hc Ht. rewrite !append_assoc.
  rewrite (occurrences_app_closed opening) by exact Ho.
  unfold tag at 2. rewrite (occurrences_lt_skip rest_of_tag text) by exact Ht.
  fold tag. rewrite (occurrences_app_closed closing) by exact Hc. lia.
Qed.

Lemma occurrences_elements {A : Type} (f text : A -> string)
  (opening closing : string) (l : list A) (tail : string) :
  ends_with_gt opening = true -> ends_with_gt closing = true ->
  (forall x, f x = opening ++ text x ++ closing) ->
  (forall x, In x l -> includes "<" (text x) = false) ->
  occurrences tag (flat (map f l) ++ tail) =
  List.length l * (occurrences tag opening + occurrences tag closing) +
  occurrences tag tail.
Proof.
  intros Ho Hc Hf Ht. induction l as [|x l IH]; [reflexivity|].
  cbn [map flat fold_right List.length]. fold (flat (map f l)).
  rewrite append_assoc, Hf.
  rewrite occurrences_element; try assumption.
  - rewrite IH; [lia|]. intros y Hy. apply Ht. now right.
  - apply Ht. now left.
Qed.

Lemma occurrences_rowsHtml (keys : list string) (items : list record)
  (tail : string) :
  occurrences tag (rowsHtml keys items ++ tail) =
  List.length items *
    (occurrences tag "<tr>" +
     List.length keys * (occurrences tag "<td>" + occurrences tag "</td>") +
     occurrences tag "</tr>") +
  occurrences tag tail.
Proof.
  unfold rowsHtml. induction items as [|item items IH]; [reflexivity|].
  cbn [map flat fold_right List.length].
  fold (flat (map (fun item0 => "<tr>" ++
          flat (map (cellHtml item0) keys) ++ "</tr>") items)).
  rewrite !append_assoc.
  rewrite (occurrences_app_closed "<tr>") by reflexivity.
  rewrite (occurrences_elements (cellHtml item)
             (fun key =>
                escapeHtml
                  (ToString (if notNullish (get item key)
                             then get item key else VStr "-")))
             "<td>" "</td>"); try reflexivity.
  - rewrite (occurrences_app_closed "</tr>") by reflexivity.
    rewrite IH. lia.
  - intros key _. apply escapeHtml_no_angle.
Qed.

Lemma occurrences_createTable (first : record) (others : list record) :
  Forall (fun key => includes "<" key = false) (Object_keys first) ->
  occurrences tag (createTable (first :: others)) =
  occurrences tag "<table><thead><tr>" +
  List.length (Object_keys first) *
    (occurrences tag "<th>" + occurrences tag "</th>") +
  occurrences tag "</tr></thead><tbody>" +
  S (List.length others) *
    (occurrences tag "<tr>" +
     List.length (Object_keys first) *
       (occurrences tag "<td>" + occurrences tag "</td>") +
     occurrences tag "</tr>") +
  occurrences tag footHtml.
Proof.
  intros Hk. rewrite createTable_shape. unfold headHtml.
  rewrite !append_assoc.
  rewrite (occurrences_app_closed "<table><thead><tr>") by reflexivity.
  rewrite (occurrences_elements
             (fun key => "<th>" ++ formatHeader key ++ "</th>")
             formatHeader "<th>" "</th>"); try reflexivity.
  - rewrite (occurrences_app_closed "</tr></thead><tbody>") by reflexivity.
    rewrite occurrences_rowsHtml. cbn [List.length]. lia.
  - intros key Hin. rewrite formatHeader_refines.
    apply capitalize_segments_no_lt.
    rewrite Forall_forall in Hk. now apply Hk.
Qed.

End Occurrences.

(** X9: the table of a non-empty list is its head, its rows over the keys
    of the first record, and its foot; the rows open exactly one [<tr>]
    per item and one [<td>] per item and key, whatever text the values
    hold; and when no key of the first record contains [<], the whole
    table opens one [<tr>] for the head and one per item, one [<th>] per
    key and one [<td>] per item and key. *)
Theorem createTable_counts (first : record) (others : list record) :
  let items := first :: others in
  let keys := Object_keys first in
  createTable items = headHtml keys ++ rowsHtml keys items ++ footHtml /\
  occurrences "<tr>" (rowsHtml keys items) = List.length items /\
  occurrences "<td>" (rowsHtml keys items) =
    List.length items * List.length keys /\
  (Forall (fun key => includes "<" key = false) keys ->
   occurrences "<tr>" (createTable items) = S (List.length items) /\
   occurrences "<th>" (createTable items) = List.length keys /\
   occurrences "<td>" (createTable items) =
     List.length items * List.length keys).
Proof.
  intros items keys. split; [apply createTable_shape|].
  split; [apply rowsHtml_occurrences|].
  split; [apply rowsHtml_occurrences|].
  intros Hk. subst items keys.
  rewrite !occurrences_createTable by (reflexivity || exact Hk).
  cbn [List.length]. repeat split; vm_compute occurrences; lia.
Qed.

Lemma createTable_counts_witness :
  occurrences "<tr>" (createTable mixed_items) = 3 /\
  occurrences "<th>" (createTable mixed_items) = 1 /\
  occurrences "<td>" (createTable mixed_items) = 2.
Proof.
  destruct (createTable_counts [("part", VStr "R1")]
              [[("qty", VNum 10); ("note", VStr "spare")]])
    as (_ & _ & _ & H).
  apply H. repeat constructor.
Defined.

Lemma cellHtml_agree (keys : list string) (a b : record) :
  agree_on keys a b -> map (cellHtml a) keys = map (cellHtml b) keys.
Proof.
  intros H. apply map_ext_in. intros key Hk.
  unfold cellHtml. now rewrite (H key Hk).
Qed.

(** X10: a table shows nothing but the values under the keys of the first
    record: replacing the later records by records that hold the same
    values under these keys gives the same table. *)
Theorem createTable_ignores_other_keys
  (first : record) (rest rest' : list record) :
  Forall2 (agree_on (Object_keys first)) rest rest' ->
  createTable (first :: rest) = createTable (first :: rest').
Proof.
  intros H. rewrite !createTable_shape. f_equal. f_equal.
  unfold rowsHtml. cbn [map]. f_equal. f_equal.
  induction H as [|a b l l' Hab _ IH]; [reflexivity|].
  cbn [map]. rewrite IH, (cellHtml_agree _ a b Hab). reflexivity.
Qed.

Lemma createTable_ignores_other_keys_witness :
  createTable [[("part", VStr "R1")]; [("part", VStr "R2"); ("qty", VNum 10)]] =
  createTable [[("part", VStr "R1")]; [("part", VStr "R2")]].
Proof.
  apply createTable_ignores_other_keys.
  constructor; [|constructor].
  intros key [<- | []]. reflexivity.
Defined.

(** X11: when the first record has no key, the table has no column: its
    head row is empty and every item, whatever it holds, is an empty
    row. *)
Theorem createTable_no_keys (rest : list record) :
  createTable ([] :: rest) =
  "<table><thead><tr></tr></thead><tbody>" ++
  flat (repeat "<tr></tr>" (S (List.length rest))) ++ "</tbody></table>".
Proof.
  rewrite createTable_shape.
  change (rowsHtml (Object_keys []) ([] :: rest))
    with (flat (map (fun _ : record => "<tr></tr>") ([] :: rest))).
  rewrite map_const. reflexivity.
Qed.

Lemma getOwn_missing (item : record) (key : string) :
  ~ In key (Object_keys item) -> getOwn item key = None.
Proof.
  induction item as [|[k v] item IH]; [reflexivity|].
  cbn [Object_keys map fst In getOwn]. intros H.
  destruct (String.eqb_spec k key) as [->|_]; [tauto|].
  apply IH. unfold Object_keys. tauto.
Qed.

Lemma Object_prototype_notNullish (key : string) (v : value) :
  getOwn Object_prototype key = Some v -> notNullish v = true.
Proof.
  unfold Object_prototype. cbn [getOwn].
  repeat (destruct (String.eqb _ key);
          [intros H; injection H as <-; reflexivity|]).
  discriminate.
Qed.

(** X12: in a column whose key the record does not have as an own
    property, the cell is the placeholder when the key is no member of
    [Object.prototype] either, and the escaped text of the inherited
    member when it is one. *)
Theorem cellHtml_missing_key (item : record) (key : string) :
  ~ In key (Object_keys item) ->
  (~ In key (Object_keys Object_prototype) ->
   cellHtml item key = "<td>-</td>") /\
  (forall v : value,
      getOwn Object_prototype key = Some v ->
      cellHtml item key = "<td>" ++ escapeHtml (ToString v) ++ "</td>").
Proof.
  intros H. unfold cellHtml, get. rewrite (getOwn_missing _ _ H). split.
  - intros P. rewrite (getOwn_missing _ _ P). reflexivity.
  - intros v P. rewrite P, (Object_prototype_notNullish _ _ P). reflexivity.
Qed.

Lemma cellHtml_missing_key_witness :
  cellHtml [("qty", VNum 10); ("note", VStr "spare")] "part" = "<td>-</td>" /\
  cellHtml [("qty", VNum 10); ("note", VStr "spare")] "constructor" =
    "<td>function Object() { [native code] }</td>".
Proof.
  assert (N : forall key,
             key <> "qty" -> key <> "note" ->
             ~ In key (Object_keys [("qty", VNum 10); ("note", VStr "spare")])).
  { intros key N1 N2 H. cbn in H. destruct H as [H | [H | []]]; congruence. }
  assert (Npart : ~ In "part" (Object_keys [("qty", VNum 10); ("note", VStr "spare")]))
    by (apply N; discriminate).
  assert (Nctor : ~ In "constructor" (Object_keys [("qty", VNum 10); ("note", VStr "spare")]))
    by (apply N; discriminate).
  split.
  - apply (cellHtml_missing_key _ "part" Npart).
    cbn. intuition discriminate.
  - apply (proj2 (cellHtml_missing_key _ "constructor" Nctor)
             (VFunction "Object")).
    reflexivity.
Defined.

Lemma ToString_number_not_dash (n : Z) : ToString (VNum n) <> "-".
Proof.
  destruct n as [|p|p]; cbn.
  - discriminate.
  - destruct (Pos.to_uint p); discriminate.
  - pose proof (DecimalPos.Unsigned.to_uint_nonnil p) as N.
    destruct (Pos.to_uint p); try discriminate. congruence.
Qed.

(** X13: the placeholder cannot be told from a value: a cell is
    [<td>-</td>] exactly when the value is undefined, null, or the
    string [-] itself. *)
Theorem cellHtml_placeholder_iff (item : record) (key : string) :
  cellHtml item key = "<td>-</td>" <->
  get item key = VUndefined \/ get item key = VNull \/
  get item key = VStr "-".
Proof.
  rewrite cellHtml_cases. split.
  - intros H. cbn [append] in H. injection H as H.
    apply (append_inv_tail _ "-" "</td>") in H.
    destruct (get item key) as [| |b|n|s|name|]; auto.
    + destruct b; discriminate.
    + apply (escapeHtml_inj _ "-") in H.
      now apply ToString_number_not_dash in H.
    + apply (escapeHtml_inj _ "-") in H.
      cbn in H. subst s. auto.
    + discriminate.
    + discriminate.
  - intros [-> | [-> | ->]]; reflexivity.
Qed.

Lemma cellHtml_placeholder_iff_witness :
  cellHtml [("note", VStr "-")] "note" = "<td>-</td>".
Proof.
  apply cellHtml_placeholder_iff. right; right. reflexivity.
Defined.

(** ** More on the controller *)

Lemma handleFileSelect_accepts (files : list File) (file : File)
  (others : list File) (p : Page) :
  files = file :: others -> is_pdf file ->
  handleFileSelect files p =
  set_selection {| currentFiles := Some files; fileName := file_name file;
                   has_file := true;
                   drag_over := drag_over (selection p) |} p.
Proof.
  intros -> H. unfold handleFileSelect, is_pdf in *. rewrite H. reflexivity.
Qed.

Lemma handleFileSelect_cases (files : list File) (p : Page) :
  handleFileSelect files p = p \/
  handleFileSelect files p = showError "Please select a PDF file" p \/
  exists file others,
    files = file :: others /\ is_pdf file /\
    handleFileSelect files p =
    set_selection {| currentFiles := Some files; fileName := file_name file;
                     has_file := true;
                     drag_over := drag_over (selection p) |} p.
Proof.
  destruct files as [|file others]; [now left|]. right.
  unfold handleFileSelect.
  destruct (String.eqb_spec (file_type file) "application/pdf") as [E|_].
  - right. exists file, others. repeat split. exact E.
  - now left.
Qed.

Lemma page_dispatch_Submit (w : World) :
  page (dispatch Submit w) = fst (submit (page w)).
Proof. unfold dispatch. destruct (submit (page w)). reflexivity. Qed.

Lemma in_flight_dispatch_Submit (w : World) :
  in_flight (dispatch Submit w) =
  match snd (submit (page w)) with
  | Some _ => S (in_flight w)
  | None => in_flight w
  end.
Proof. unfold dispatch. destruct (submit (page w)). reflexivity. Qed.

Lemma submit_cases (p : Page) :
  submit p = (showError "Please select a file" p, None) \/
  exists file others,
    currentFiles (selection p) = Some (file :: others) /\
    submit p =
    (set_fetched
       (fetched p ++ [{| fd_file := file; fd_bom_type := bomType (form p) |}])
       (hideError (setLoading true p)),
     Some {| fd_file := file; fd_bom_type := bomType (form p) |}).
Proof.
  unfold submit. destruct (currentFiles (selection p)) as [[|file others]|].
  - now left.
  - right. exists file, others. split; reflexivity.
  - now left.
Qed.

Lemma submit_settled_cases (o : Outcome) (p : Page) :
  (exists msg, submit_settled o p = setLoading false (showError msg p)) \/
  (exists result d,
      o = Responded true result /\ success result = true /\
      data result = Some d /\
      submit_settled o p = setLoading false (fst (displayResults result p))).
Proof.
  unfold submit_settled, try_catch_finally, submit_try.
  destruct o as [e|ok e|ok result].
  - left. eexists. reflexivity.
  - left. eexists. reflexivity.
  - destruct ok, (success result) eqn:S; cbn [andb];
      try (left; eexists; reflexivity).
    unfold displayResults. destruct (data result) as [d|] eqn:D.
    + right. exists result, d. repeat split; try assumption.
      now rewrite D.
    + left. eexists. reflexivity.
Qed.

(** X14: a file list headed by a PDF becomes the selection as a whole,
    its first name is displayed, and the sections and the error message
    stay as they are; the submission that follows sends the first file
    alone, with the mode of the form. *)
Theorem handleFileSelect_then_submit
  (files : list File) (file : File) (others : list File) (p : Page) :
  files = file :: others -> is_pdf file ->
  let p' := handleFileSelect files p in
  currentFiles (selection p') = Some files /\
  fileName (selection p') = file_name file /\
  has_file (selection p') = true /\
  sections p' = sections p /\
  errorMessage p' = errorMessage p /\
  snd (submit p') =
    Some {| fd_file := file; fd_bom_type := bomType (form p) |} /\
  fetched (fst (submit p')) =
    (fetched p ++ [{| fd_file := file; fd_bom_type := bomType (form p) |}])%list.
Proof.
  intros Hf Hp p'. subst p'.
  rewrite (handleFileSelect_accepts files file others p Hf Hp).
  subst files. repeat split.
Qed.

Lemma handleFileSelect_then_submit_witness :
  snd (submit (handleFileSelect [bom_pdf; notes_txt] (initial_page "engineering"))) =
  Some {| fd_file := bom_pdf; fd_bom_type := "engineering" |}.
Proof.
  destruct (handleFileSelect_then_submit [bom_pdf; notes_txt] bom_pdf [notes_txt]
              (initial_page "engineering") eq_refl eq_refl)
    as (_ & _ & _ & _ & _ & H & _).
  exact H.
Defined.

(** X15: however the request settles when nothing has happened since the
    submission, exactly one section is displayed afterwards: Results for a
    success status with [success] true and [data] present, Error in every
    other case. *)
Theorem submit_then_settled (p : Page) (file : File) (others : list File)
  (o : Outcome) :
  currentFiles (selection p) = Some (file :: others) ->
  sections (submit_settled o (fst (submit p))) =
  match o with
  | Responded true result =>
      if success result then
        match data result with
        | Some _ => only_results
        | None => only_error
        end
      else only_error
  | _ => only_error
  end.
Proof.
  intros H. unfold submit. rewrite H. cbn [fst].
  unfold submit_settled, try_catch_finally, submit_try.
  destruct o as [e|ok e|ok result]; try reflexivity.
  destruct ok, (success result); cbn [andb]; try reflexivity.
  unfold displayResults. destruct (data result); reflexivity.
Qed.

Lemma submit_then_settled_witness :
  sections (submit_settled (Responded true scenario_body)
              (fst (submit (handleFileSelect [bom_pdf] (initial_page "simple"))))) =
  only_results.
Proof.
  apply (submit_then_settled (handleFileSelect [bom_pdf] (initial_page "simple"))
           bom_pdf [] (Responded true scenario_body)).
  reflexivity.
Defined.

(** X16: a rejected [fetch] and a body that is not JSON, whatever the
    status of the response, are both reported as [Network error: ]
    followed by the message of the error; the Error section alone is
    displayed, and the selection, the results and the request log are left
    as they were. *)
Theorem submit_settled_rejected (e : Exn) (ok : bool) (p : Page) :
  forall o : Outcome, o = FetchRejected e \/ o = JsonRejected ok e ->
  let p' := submit_settled o p in
  sections p' = only_error /\
  errorMessage p' = "Network error: " ++ message e /\
  submitBtn p' = not_loading /\
  selection p' = selection p /\
  results p' = results p /\
  fetched p' = fetched p.
Proof.
  intros o [-> | ->]; repeat split.
Qed.

Lemma submit_settled_rejected_witness :
  errorMessage
    (submit_settled (JsonRejected true {| message := "Unexpected token <" |})
       (initial_page "simple")) =
  "Network error: Unexpected token <".
Proof.
  destruct (submit_settled_rejected {| message := "Unexpected token <" |} true
              (initial_page "simple") _ (or_intror eq_refl))
    as (_ & H & _).
  exact H.
Defined.

(** X17: a success response that arrives after a reset is rendered all the
    same: the Results section replaces the upload section while the
    selection stays cleared. *)
Theorem late_response_after_reset (result : Body) (d : Data) (p : Page) :
  success result = true -> data result = Some d ->
  let p' := submit_settled (Responded true result) (resetForm p) in
  sections p' = only_results /\
  currentFiles (selection p') = None /\
  has_file (selection p') = false /\
  dataTable (results p') = createTable (items d).
Proof.
  intros S D p'. subst p'.
  unfold submit_settled, try_catch_finally, submit_try.
  rewrite S. cbn [andb]. unfold displayResults. rewrite D. repeat split.
Qed.

Lemma late_response_after_reset_witness :
  sections (submit_settled (Responded true scenario_body)
              (resetForm (initial_page "simple"))) = only_results.
Proof.
  destruct (late_response_after_reset scenario_body _ (initial_page "simple")
              eq_refl eq_refl) as (H & _).
  exact H.
Defined.

(** X18: the results view holds the latest response only: with [data]
    present the summary, the table and both download handlers are the same
    whatever was displayed before, and the handlers lead to
    [/download/json/] and [/download/csv/] followed by the identifiers of
    this response; with [data] absent nothing of the view is replaced, the
    handlers of the previous response included. *)
Theorem displayResults_latest (result : Body) (p q : Page) :
  match data result with
  | Some _ =>
      results (fst (displayResults result p)) =
        results (fst (displayResults result q)) /\
      click_downloadJson (fst (displayResults result p)) =
        option_map (fun files => "/download/json/" ++ json files)
          (body_files result) /\
      click_downloadCsv (fst (displayResults result p)) =
        option_map (fun files => "/download/csv/" ++ csv files)
          (body_files result)
  | None =>
      results (fst (displayResults result p)) = results p /\
      click_downloadJson (fst (displayResults result p)) = click_downloadJson p /\
      click_downloadCsv (fst (displayResults result p)) = click_downloadCsv p
  end.
Proof.
  unfold displayResults, click_downloadJson, click_downloadCsv.
  destruct (data result); cbn; repeat split;
    destruct (body_files result); reflexivity.
Qed.

(** X19: a reset clears the selection and the form and displays the upload
    section from any page, and it does so identically after results and
    after an error; it is idempotent, and it leaves the submit control and
    the request log as they are, so a reset while a request is in flight
    neither re-enables the control nor withdraws the request. *)
Theorem resetForm_effect (p : Page) :
  sections (resetForm p) = only_upload /\
  currentFiles (selection (resetForm p)) = None /\
  has_file (selection (resetForm p)) = false /\
  fileInput (form (resetForm p)) = [] /\
  bomType (form (resetForm p)) = bomType_default (form p) /\
  resetForm (resetForm p) = resetForm p /\
  (forall (msg : string) (result : Body),
      let after_error := resetForm (showError msg p) in
      let after_results := resetForm (fst (displayResults result p)) in
      sections after_error = sections after_results /\
      selection after_error = selection after_results /\
      form after_error = form after_results) /\
  submitBtn (resetForm p) = submitBtn p /\
  fetched (resetForm p) = fetched p.
Proof.
  repeat split; unfold displayResults; destruct (data result); reflexivity.
Qed.

(** ** Invariants of the reachable pages *)

Lemma run_invariant (I : World -> Prop) :
  (forall e w, I w -> enabled e w = true -> I (dispatch e w)) ->
  forall es w w', I w -> run es w = Some w' -> I w'.
Proof.
  intros step es. induction es as [|e es IH]; intros w w' Hw Hr.
  - injection Hr as <-. exact Hw.
  - cbn [run] in Hr. destruct (enabled e w) eqn:E; [|discriminate].
    apply (IH (dispatch e w)); [now apply step | exact Hr].
Qed.

Lemma reachable_invariant (I : World -> Prop) :
  I initial_world ->
  (forall e w, I w -> enabled e w = true -> I (dispatch e w)) ->
  forall w, reachable w -> I w.
Proof.
  intros init step w [es Hr]. exact (run_invariant I step es _ _ init Hr).
Qed.

Lemma handleFileSelect_submitBtn (files : list File) (p : Page) :
  submitBtn (handleFileSelect files p) = submitBtn p.
Proof.
  destruct (handleFileSelect_cases files p) as [-> | [-> | (f & o & _ & _ & ->)]];
    reflexivity.
Qed.

Lemma handleFileSelect_fetched (files : list File) (p : Page) :
  fetched (handleFileSelect files p) = fetched p.
Proof.
  destruct (handleFileSelect_cases files p) as [-> | [-> | (f & o & _ & _ & ->)]];
    reflexivity.
Qed.

Lemma handleFileSelect_consistent (files : list File) (p : Page) :
  selection_consistent (selection p) ->
  selection_consistent (selection (handleFileSelect files p)).
Proof.
  intros H.
  destruct (handleFileSelect_cases files p) as [-> | [-> | (f & o & Hf & Hp & ->)]].
  - exact H.
  - exact H.
  - unfold selection_consistent. cbn. split; [reflexivity|].
    exists f, o. repeat split; assumption.
Qed.

Lemma submit_settled_selection (o : Outcome) (p : Page) :
  selection (submit_settled o p) = selection p /\
  fetched (submit_settled o p) = fetched p.
Proof.
  destruct (submit_settled_cases o p) as [(msg & ->) | (r & d & _ & _ & D & ->)].
  - split; reflexivity.
  - unfold displayResults. rewrite D. split; reflexivity.
Qed.

(** X20: on every reachable page the selection is either empty, with the
    marker unset, or a file list headed by a PDF whose name is the one
    displayed, with the marker set; and every request issued so far carries
    a PDF. *)
Theorem reachable_selection (w : World) :
  reachable w ->
  selection_consistent (selection (page w)) /\
  Forall (fun request => is_pdf (fd_file request)) (fetched (page w)).
Proof.
  apply (reachable_invariant
           (fun w => selection_consistent (selection (page w)) /\
                     Forall (fun request => is_pdf (fd_file request))
                       (fetched (page w)))).
  - split; [reflexivity | constructor].
  - intros e w0 [Hs Hf] _. destruct e as [files| | |files| |o| |].
    + cbn [dispatch page]. rewrite handleFileSelect_fetched. split.
      * now apply handleFileSelect_consistent.
      * exact Hf.
    + split; assumption.
    + split; assumption.
    + cbn [dispatch page]. rewrite handleFileSelect_fetched. split.
      * now apply handleFileSelect_consistent.
      * exact Hf.
    + rewrite page_dispatch_Submit.
      destruct (submit_cases (page w0)) as [-> | (f & fs & Hc & ->)].
      * split; assumption.
      * cbn [fst]. split; [exact Hs|].
        cbn. apply Forall_app. split; [exact Hf|].
        constructor; [|constructor]. cbn.
        unfold selection_consistent in Hs. rewrite Hc in Hs.
        destruct Hs as (_ & f' & o' & E & P & _).
        injection E as <- _. exact P.
    + cbn [dispatch page].
      destruct (submit_settled_selection o (page w0)) as [-> ->].
      split; assumption.
    + split; [reflexivity | exact Hf].
    + split; [reflexivity | exact Hf].
Qed.

Lemma reachable_selection_witness :
  exists w : World,
    run [Change [bom_pdf]; Submit; Drop [notes_txt]] initial_world = Some w /\
    selection_consistent (selection (page w)) /\
    Forall (fun request => is_pdf (fd_file request)) (fetched (page w)).
Proof.
  eexists. split; [reflexivity|].
  apply reachable_selection.
  exists [Change [bom_pdf]; Submit; Drop [notes_txt]]. reflexivity.
Defined.

Lemma upload_visible_only_upload (s : Sections) :
  s = only_upload \/ s = only_results \/ s = only_error \/
  s = results_and_error ->
  visible (uploadSection s) = true -> s = only_upload.
Proof. intros [-> | [-> | [-> | ->]]] H; try discriminate. reflexivity. Qed.

(** X21: on every reachable page the displayed sections are the upload
    section alone, the Results section alone, the Error section alone, or
    Results and Error together; never none of them, never all three, and
    never the upload section beside another one. *)
Theorem reachable_sections (w : World) :
  reachable w ->
  sections (page w) = only_upload \/
  sections (page w) = only_results \/
  sections (page w) = only_error \/
  sections (page w) = results_and_error.
Proof.
  apply (reachable_invariant
           (fun w => sections (page w) = only_upload \/
                     sections (page w) = only_results \/
                     sections (page w) = only_error \/
                     sections (page w) = results_and_error)).
  - now left.
  - intros e w0 H En. destruct e as [files| | |files| |o| |].
    + cbn [dispatch page enabled] in *.
      destruct (handleFileSelect_cases files
                  (set_form {| fileInput := files;
                               bomType := bomType (form (page w0));
                               bomType_default := bomType_default (form (page w0)) |}
                     (page w0)))
        as [-> | [-> | (f & o & _ & _ & ->)]]; auto.
    + exact H.
    + exact H.
    + cbn [dispatch page enabled] in *.
      destruct (handleFileSelect_cases files (set_drag_over false (page w0)))
        as [-> | [-> | (f & o & _ & _ & ->)]]; auto.
    + rewrite page_dispatch_Submit. cbn [enabled] in En.
      apply andb_true_iff in En. destruct En as [Hv _].
      pose proof (upload_visible_only_upload _ H Hv) as U.
      destruct (submit_cases (page w0)) as [-> | (f & fs & _ & ->)].
      * right; right; left. reflexivity.
      * left. cbn. rewrite U. reflexivity.
    + cbn [dispatch page].
      destruct (submit_settled_cases o (page w0))
        as [(msg & ->) | (r & d & _ & _ & D & ->)].
      * right; right; left. reflexivity.
      * unfold displayResults. rewrite D. cbn.
        destruct H as [-> | [-> | [-> | ->]]]; cbn; auto.
    + left. reflexivity.
    + left. reflexivity.
Qed.

Lemma reachable_sections_witness :
  exists w : World,
    run late_response initial_world = Some w /\
    sections (page w) = results_and_error.
Proof.
  eexists. split; [reflexivity|].
  destruct (reachable_sections
              {| page := submit_settled (Responded true scenario_body)
                           (handleFileSelect [notes_txt]
                              (set_drag_over false
                                 (fst (submit
                                    (handleFileSelect [bom_pdf]
                                       (set_form
                                          {| fileInput := [bom_pdf];
                                             bomType := "simple";
                                             bomType_default := "simple" |}
                                          (initial_page "simple")))))));
                 in_flight := 0 |}
              (ex_intro _ late_response eq_refl))
    as [H | [H | [H | H]]]; try discriminate H.
  exact H.
Defined.

(** X22: at most one request is in flight on a reachable page, and the
    submit control is disabled, showing its loader, exactly while one is:
    a second submission cannot be made before the first has settled. *)
Theorem reachable_single_flight (w : World) :
  reachable w ->
  (in_flight w = 0 /\ submitBtn (page w) = not_loading) \/
  (in_flight w = 1 /\ submitBtn (page w) = loading).
Proof.
  apply (reachable_invariant
           (fun w => (in_flight w = 0 /\ submitBtn (page w) = not_loading) \/
                     (in_flight w = 1 /\ submitBtn (page w) = loading))).
  - left. split; reflexivity.
  - intros e w0 H En. destruct e as [files| | |files| |o| |].
    + cbn [dispatch page in_flight]. rewrite handleFileSelect_submitBtn. exact H.
    + exact H.
    + exact H.
    + cbn [dispatch page in_flight]. rewrite handleFileSelect_submitBtn. exact H.
    + rewrite page_dispatch_Submit, in_flight_dispatch_Submit.
      cbn [enabled] in En. apply andb_true_iff in En. destruct En as [_ Hd].
      destruct H as [[H0 Hb] | [_ Hb]];
        [|rewrite Hb in Hd; discriminate].
      destruct (submit_cases (page w0)) as [-> | (f & fs & _ & ->)].
      * left. split; assumption.
      * right. rewrite H0. split; reflexivity.
    + cbn [dispatch page in_flight enabled] in *.
      left. split; [|apply finally_setLoading].
      destruct H as [[H0 _] | [H1 _]]; [|now rewrite H1].
      rewrite H0 in En. discriminate.
    + exact H.
    + exact H.
Qed.

Lemma reachable_single_flight_witness :
  exists w : World,
    run [Change [bom_pdf]; Submit] initial_world = Some w /\
    in_flight w = 1 /\ enabled Submit w = false.
Proof.
  eexists. split; [reflexivity|].
  destruct (reachable_single_flight
              {| page := fst (submit
                               (handleFileSelect [bom_pdf]
                                  (set_form
                                     {| fileInput := [bom_pdf];
                                        bomType := "simple";
                                        bomType_default := "simple" |}
                                     (initial_page "simple"))));
                 in_flight := 1 |}
              (ex_intro _ [Change [bom_pdf]; Submit] eq_refl))
    as [[H _] | [H _]]; [discriminate H|].
  split; [exact H | reflexivity].
Defined.
